(** * VibeBoard: the moodboard server, embedded and verified

    A shallow embedding of the server side of VibeBoard: the two mood
    mappers, the three adapters of external services, the in-memory store
    ([server/storage.ts]) and the request handlers, with the request
    schemas of [shared/schema.ts]; and, of the client, the mood form, the
    download name and the image heuristic of [lib/opencv-processor.ts].

    Conventions of the embedding.
    - A JavaScript string is a [string] whose characters are read as
      code units below 256 (Latin-1); [toLowerCase] and [trim] are the
      ECMAScript functions restricted to that range.
    - An [async] function that can reject is a function into [result];
      [try]/[catch] is [catch].
    - What an external service answers, the random share identifier and
      the clock are inputs of the functions that consume them.
    - A number used as a counter is a [Z]; the store never holds enough
      records for the counter to leave the range where doubles are exact.
      The numbers of the image heuristic are binary64 floats. *)

From Stdlib Require Import ZArith NArith Bool List Ascii String Lia DecimalString.
From Stdlib Require Floats.PrimFloat Uint63.
From stdpp Require Import gmap strings.
Import ListNotations.

Local Open Scope string_scope.
Local Open Scope bool_scope.

(** ** JavaScript strings *)

Module JsString.

(** [String.prototype.toLowerCase] on one code unit below 256: the
    upper-case letters are A-Z and U+00C0-U+00DE without U+00D7. *)
Definition lower_char (c : ascii) : ascii :=
  let n := N_of_ascii c in
  if ((65 <=? n) && (n <=? 90)
      || (192 <=? n) && (n <=? 222) && negb (n =? 215))%N
  then ascii_of_N (n + 32) else c.

Fixpoint toLowerCase (s : string) : string :=
  match s with
  | EmptyString => EmptyString
  | String c s' => String (lower_char c) (toLowerCase s')
  end.

(** White space and line terminators below 256, as [trim] sees them:
    TAB, LF, VT, FF, CR, SP and NBSP. *)
Definition is_space (c : ascii) : bool :=
  let n := N_of_ascii c in
  ((9 <=? n) && (n <=? 13) || (n =? 32) || (n =? 160))%N.

Fixpoint trimStart (s : string) : string :=
  match s with
  | EmptyString => EmptyString
  | String c s' => if is_space c then trimStart s' else s
  end.

Fixpoint trimEnd (s : string) : string :=
  match s with
  | EmptyString => EmptyString
  | String c s' =>
      match trimEnd s' with
      | EmptyString => if is_space c then EmptyString else String c EmptyString
      | r => String c r
      end
  end.

Definition trim (s : string) : string := trimEnd (trimStart s).

(** [s.includes(t)] *)
Fixpoint includes (s t : string) : bool :=
  String.prefix t s
  || match s with
     | EmptyString => false
     | String _ s' => includes s' t
     end.

(** [s.split(' ')[0]]: [split] never returns an empty array, and its
    first element is what precedes the first U+0020. *)
Fixpoint split_space_0 (s : string) : string :=
  match s with
  | EmptyString => EmptyString
  | String c s' =>
      if Ascii.eqb c " " then EmptyString else String c (split_space_0 s')
  end.

(** [s.replace(/[^a-z]/g, '')] *)
Definition is_a_z (c : ascii) : bool :=
  let n := N_of_ascii c in ((97 <=? n) && (n <=? 122))%N.

Fixpoint replace_non_a_z (s : string) : string :=
  match s with
  | EmptyString => EmptyString
  | String c s' =>
      if is_a_z c then String c (replace_non_a_z s') else replace_non_a_z s'
  end.

(** A string is truthy when it is not empty. *)
Definition truthy (s : string) : bool :=
  match s with EmptyString => false | _ => true end.

(** [a || b] on strings *)
Definition or_else (a b : string) : string := if truthy a then a else b.

Definition dquote : string := String (ascii_of_nat 34) EmptyString.

End JsString.
Import JsString.

(** ** Plain objects used as tables *)

Module JsObject.

(** What [o[k]] evaluates to on an object literal whose own properties
    hold values of type [A]: an own value, or a member that every plain
    object inherits from [Object.prototype]. *)
Inductive js (A : Type) : Type :=
| Val (a : A)
| Proto (name : string).
Arguments Val {A} a.
Arguments Proto {A} name.

(** The property names of [Object.prototype]. *)
Definition Object_prototype : list string :=
  [ "constructor"; "__defineGetter__"; "__defineSetter__"; "hasOwnProperty";
    "__lookupGetter__"; "__lookupSetter__"; "isPrototypeOf";
    "propertyIsEnumerable"; "toString"; "valueOf"; "__proto__";
    "toLocaleString" ].

Definition inherited (k : string) : bool :=
  existsb (String.eqb k) Object_prototype.

(** An object literal, its entries in insertion order, which is the
    order of [Object.entries] for keys that are not array indices. *)
Definition object (A : Type) : Type := list (string * A).

Fixpoint own {A} (o : object A) (k : string) : option A :=
  match o with
  | [] => None
  | (k', v) :: o' => if String.eqb k k' then Some v else own o' k
  end.

(** [o[k]]; [None] is [undefined]. *)
Definition get {A} (o : object A) (k : string) : option (js A) :=
  match own o k with
  | Some v => Some (Val v)
  | None => if inherited k then Some (Proto k) else None
  end.

Definition keys {A} (o : object A) : list string := map fst o.

End JsObject.
Import JsObject.

(** ** The mood mappers (server/routes.ts) *)

Definition moodColorMap : object (list string) :=
  [ ("happy", ["#FFA726"; "#66BB6A"; "#42A5F5"; "#FFEB3B"]);
    ("peaceful", ["#81C784"; "#64B5F6"; "#A5D6A7"; "#E1F5FE"]);
    ("excited", ["#FF7043"; "#FFA726"; "#FFCA28"; "#EC407A"]);
    ("sad", ["#90A4AE"; "#78909C"; "#B0BEC5"; "#CFD8DC"]);
    ("angry", ["#E53935"; "#FF5722"; "#F44336"; "#D32F2F"]);
    ("anxious", ["#9E9E9E"; "#78909C"; "#546E7A"; "#607D8B"]);
    ("motivated", ["#4CAF50"; "#2196F3"; "#FF9800"; "#9C27B0"]);
    ("creative", ["#9C27B0"; "#E91E63"; "#FF5722"; "#607D8B"]);
    ("nostalgic", ["#8D6E63"; "#A1887F"; "#BCAAA4"; "#D7CCC8"]);
    ("dreamy", ["#CE93D8"; "#F8BBD9"; "#C5CAE9"; "#DCEDC8"]) ].

Definition moodPlaylistMap : object string :=
  [ ("happy", "37i9dQZF1DX0XUsuxWHRQd");
    ("peaceful", "37i9dQZF1DWZqd5JICZI0u");
    ("excited", "37i9dQZF1DX32NsLKyzScr");
    ("sad", "37i9dQZF1DX3YSRoSdA634");
    ("motivated", "37i9dQZF1DXdxcBWuJkbcy");
    ("creative", "37i9dQZF1DX0SM0LYsmbMT");
    ("nostalgic", "37i9dQZF1DX1s9knjP51Oa");
    ("dreamy", "37i9dQZF1DX3Sp0P28SIer") ].

Definition defaultColors : list string :=
  ["#42A5F5"; "#66BB6A"; "#FFA726"; "#AB47BC"].

Definition defaultPlaylist : string := "37i9dQZF1DX0XUsuxWHRQd".

(** The test of the partial-match loop:
    [lowerMood.includes(key) || key.includes(lowerMood)]. *)
Definition partial_match (lowerMood key : string) : bool :=
  includes lowerMood key || includes key lowerMood.

(** The [for ... of Object.entries(o)] loop that returns at the first
    partial match. *)
Fixpoint first_partial {A} (o : object A) (lowerMood : string) : option A :=
  match o with
  | [] => None
  | (key, v) :: o' =>
      if partial_match lowerMood key then Some v else first_partial o' lowerMood
  end.

Definition getColorsForMood (mood : string) : js (list string) :=
  let lowerMood := toLowerCase mood in
  match get moodColorMap lowerMood with
  | Some found => found            (* an array or an inherited member: truthy *)
  | None =>
      match first_partial moodColorMap lowerMood with
      | Some colors => Val colors
      | None => Val defaultColors
      end
  end.

(** Truthiness of [moodPlaylistMap[lowerMood]]. *)
Definition truthy_entry (v : option (js string)) : bool :=
  match v with
  | Some (Val s) => truthy s
  | Some (Proto _) => true
  | None => false
  end.

Definition getPlaylistForMood (mood : string) : js string :=
  let lowerMood := toLowerCase mood in
  match get moodPlaylistMap lowerMood with
  | Some found =>
      if truthy_entry (Some found) then found
      else match first_partial moodPlaylistMap lowerMood with
           | Some playlistId => Val playlistId
           | None => Val defaultPlaylist
           end
  | None =>
      match first_partial moodPlaylistMap lowerMood with
      | Some playlistId => Val playlistId
      | None => Val defaultPlaylist
      end
  end.

(** ** Rejections and [try]/[catch] *)

Inductive exn : Type :=
| Error (message : string)          (* [new Error(message)] *)
| TypeError                         (* a property read on [undefined] *)
| ZodError (issues : list string)   (* thrown by [schema.parse]: the paths at
                                       fault; the empty path is the body *)
| ServiceError (detail : string).   (* raised by [fetch] or by a service client *)

Inductive result (A : Type) : Type :=
| Ok (a : A)
| Throw (e : exn).
Arguments Ok {A} a.
Arguments Throw {A} e.

Definition bind {A B} (r : result A) (k : A -> result B) : result B :=
  match r with
  | Ok a => k a
  | Throw e => Throw e
  end.

Definition catch {A} (r : result A) (handler : exn -> result A) : result A :=
  match r with
  | Ok a => Ok a
  | Throw e => handler e
  end.

Notation "'let!' x ':=' r 'in' k" := (bind r (fun x => k))
  (at level 10, x name, r at level 100, k at level 200).

(** ** Process configuration *)

Record Env : Type := {
  OPENAI_API_KEY : option string;
  OPENAI_API_KEY_ENV_VAR : option string;
  UNSPLASH_ACCESS_KEY : option string;
  UNSPLASH_API_KEY : option string
}.

(** [process.env.X || rest] *)
Definition env_or (x : option string) (rest : string) : string :=
  match x with
  | Some s => or_else s rest
  | None => rest
  end.

Definition openai_apiKey (env : Env) : string :=
  env_or (OPENAI_API_KEY env) (env_or (OPENAI_API_KEY_ENV_VAR env) EmptyString).

Definition UNSPLASH_KEY (env : Env) : string :=
  env_or (UNSPLASH_ACCESS_KEY env) (env_or (UNSPLASH_API_KEY env) EmptyString).

(** ** JSON values *)

(** A parsed JSON text. A number keeps its literal: the code only asks
    whether a value is a number. *)
#[local] Unset Elimination Schemes.
Inductive json_value : Type :=
| JNull
| JBool (b : bool)
| JNumber (literal : string)
| JString (s : string)
| JArray (items : list json_value)
| JObject (members : list (string * json_value)).
#[local] Set Elimination Schemes.

(** A value as the code holds it: [None] is [undefined]. *)
Definition js_value : Type := option json_value.

Definition js_string (s : string) : js_value := Some (JString s).

(** ** The image fetcher *)

(** One element of [data.results], as [photo.urls.regular] reads it:
    [None] when the reading throws (the element or its [urls] is [null]
    or [undefined]), else the value read, which need not be a string
    and is [undefined] when [urls] has no [regular]. *)
Record Photo : Type := { urls_regular : option js_value }.

(** The parsed body; [results] is [None] when it is not an array. *)
Record SearchData : Type := { results : option (list Photo) }.

(** What [fetch] resolves to; [json] is [None] when [response.json()]
    rejects. *)
Record Response : Type := { status : Z; json : option SearchData }.

Definition ok (r : Response) : bool := (200 <=? status r)%Z && (status r <=? 299)%Z.

(** The status as a template literal prints it. *)
Definition status_text (status : Z) : string :=
  NilZero.string_of_int (Z.to_int status).

Definition fallbackImages : list js_value :=
  [ js_string "https://images.unsplash.com/photo-1506905925346-21bda4d32df4?ixlib=rb-4.0.3&auto=format&fit=crop&w=800&h=600";
    js_string "https://images.unsplash.com/photo-1441974231531-c6227db76b6e?ixlib=rb-4.0.3&auto=format&fit=crop&w=800&h=600";
    js_string "https://images.unsplash.com/photo-1481627834876-b7833e8f5570?ixlib=rb-4.0.3&auto=format&fit=crop&w=800&h=600";
    js_string "https://images.unsplash.com/photo-1495474472287-4d71bcdd2085?ixlib=rb-4.0.3&auto=format&fit=crop&w=800&h=600" ].

(** [photos.map((photo) => photo.urls.regular)] *)
Fixpoint map_urls_regular (photos : list Photo) : result (list js_value) :=
  match photos with
  | [] => Ok []
  | photo :: rest =>
      match urls_regular photo with
      | None => Throw TypeError
      | Some url => let! urls := map_urls_regular rest in Ok (url :: urls)
      end
  end.

(** [fetched] is the outcome of the [fetch] call for this mood. *)
Definition fetchUnsplashImages (key : string) (mood : string)
    (fetched : result Response) : result (list js_value) :=
  if negb (truthy key) then Throw (Error "Unsplash API key not configured")
  else
    catch
      (let! response := fetched in
       if negb (ok response)
       then Throw (Error ("Unsplash API error: " +:+ status_text (status response)))
       else
         match json response with
         | None => Throw (ServiceError "invalid json")
         | Some data =>
             match results data with
             | None => Throw TypeError
             | Some photos => map_urls_regular photos
             end
         end)
      (fun _ => Ok fallbackImages).

(** ** The quote generator and the image classifier *)

(** [choices[i].message]; [content] is [None] when it is [null]. *)
Record ChatMessage : Type := { content : option string }.

Record ChatCompletion : Type := { choices : list ChatMessage }.

Definition fallbackQuote (mood : string) : string :=
  dquote +:+ "Every " +:+ mood
  +:+ " moment is a step toward growth and self-discovery." +:+ dquote.

(** [completion] is the outcome of [openai.chat.completions.create]. *)
Definition generateAIQuote (apiKey : string) (mood : string)
    (completion : result ChatCompletion) : result string :=
  if negb (truthy apiKey) then Throw (Error "OpenAI API key not configured")
  else
    catch
      (let! response := completion in
       match choices response with
       | [] => Throw TypeError
       | first :: _ =>
           match content first with
           | Some text => Ok (or_else (trim text) (fallbackQuote mood))
           | None => Ok (fallbackQuote mood)
           end
       end)
      (fun _ => Ok (fallbackQuote mood)).

Definition fallbackMood : string := "peaceful".

Definition analyzeMoodFromImage (apiKey : string) (base64Image : string)
    (completion : result ChatCompletion) : result string :=
  if negb (truthy apiKey) then Throw (Error "OpenAI API key not configured")
  else
    catch
      (let! response := completion in
       match choices response with
       | [] => Throw TypeError
       | first :: _ =>
           let detectedMood :=
             match content first with
             | Some text => or_else (toLowerCase (trim text)) fallbackMood
             | None => fallbackMood
             end in
           Ok (replace_non_a_z (split_space_0 detectedMood))
       end)
      (fun _ => Ok fallbackMood).

(** ** Request bodies and their schemas (shared/schema.ts) *)

(** [data[key]] on a parsed object: of two members with one name the
    later one is kept. *)
Fixpoint member (key : string) (members : list (string * json_value))
  : option json_value :=
  match members with
  | [] => None
  | (k, v) :: rest =>
      match member key rest with
      | Some later => Some later
      | None => if String.eqb key k then Some v else None
      end
  end.

(** [z.string().min(1).max(100)] on a string *)
Definition mood_in_bounds (s : string) : bool :=
  (1 <=? String.length s)%nat && (String.length s <=? 100)%nat.

(** [generateMoodboardSchema.parse(body)] *)
Definition generateMoodboardSchema_parse (body : json_value) : result string :=
  match body with
  | JObject members =>
      match member "mood" members with
      | Some (JString mood) =>
          if mood_in_bounds mood then Ok mood else Throw (ZodError ["mood"])
      | _ => Throw (ZodError ["mood"])
      end
  | _ => Throw (ZodError [EmptyString])
  end.

Definition is_number (v : option json_value) : bool :=
  match v with Some (JNumber _) => true | _ => false end.

Definition is_boolean (v : option json_value) : bool :=
  match v with Some (JBool _) => true | _ => false end.

(** The issues of the optional [cvAnalysis] object. *)
Definition cvAnalysis_issues (v : option json_value) : list string :=
  match v with
  | None => []
  | Some (JObject cv) =>
      (if is_number (member "avgBrightness" cv) then [] else ["cvAnalysis.avgBrightness"])
      ++ (if is_number (member "contrast" cv) then [] else ["cvAnalysis.contrast"])
      ++ (if is_number (member "edgeIntensity" cv) then [] else ["cvAnalysis.edgeIntensity"])
      ++ (if is_boolean (member "faceDetected" cv) then [] else ["cvAnalysis.faceDetected"])
  | Some _ => ["cvAnalysis"]
  end.

(** [analyzeMoodFromImageSchema.parse(body)], returning the [image] field,
    the only one the handler reads. *)
Definition analyzeMoodFromImageSchema_parse (body : json_value) : result string :=
  match body with
  | JObject members =>
      let cv := cvAnalysis_issues (member "cvAnalysis" members) in
      match member "image" members with
      | Some (JString image) =>
          match cv with
          | [] => Ok image
          | _ => Throw (ZodError cv)
          end
      | _ => Throw (ZodError ("image" :: cv))
      end
  | _ => Throw (ZodError [EmptyString])
  end.

(** ** The store (server/storage.ts) *)

Record Moodboard : Type := {
  id : Z;
  mood : string;
  quote : string;
  images : list js_value;      (* declared [string[]] *)
  colors : js (list string);
  spotifyPlaylistId : option (js string);   (* [None] is [null] *)
  shareId : string;
  createdAt : Z
}.

Module InsertMoodboard.
Record t : Type := {
  mood : string;
  quote : string;
  images : list js_value;      (* declared [string[]] *)
  colors : js (list string);
  spotifyPlaylistId : option (js string);   (* [None] is [undefined] *)
  shareId : string
}.
End InsertMoodboard.

Record MemStorage : Type := {
  moodboards : gmap Z Moodboard;
  shareIdMap : gmap string Z;
  currentId : Z
}.

(** [new MemStorage()] *)
Definition constructor : MemStorage :=
  {| moodboards := ∅; shareIdMap := ∅; currentId := 1 |}.

(** [x || null] on a playlist reference *)
Definition or_null (x : option (js string)) : option (js string) :=
  if truthy_entry x then x else None.

(** [now] is what [new Date()] reads. The new state comes with the record. *)
Definition createMoodboard (this : MemStorage) (insertMoodboard : InsertMoodboard.t)
    (now : Z) : MemStorage * Moodboard :=
  let id := currentId this in
  let moodboard :=
    {| id := id;
       mood := InsertMoodboard.mood insertMoodboard;
       quote := InsertMoodboard.quote insertMoodboard;
       images := InsertMoodboard.images insertMoodboard;
       colors := InsertMoodboard.colors insertMoodboard;
       spotifyPlaylistId := or_null (InsertMoodboard.spotifyPlaylistId insertMoodboard);
       shareId := InsertMoodboard.shareId insertMoodboard;
       createdAt := now |} in
  ({| moodboards := <[id := moodboard]> (moodboards this);
      shareIdMap := <[shareId moodboard := id]> (shareIdMap this);
      currentId := (id + 1)%Z |},
   moodboard).

Definition getMoodboard (this : MemStorage) (id : Z) : option Moodboard :=
  moodboards this !! id.

Definition getMoodboardByShareId (this : MemStorage) (shareId : string)
  : option Moodboard :=
  match shareIdMap this !! shareId with
  | None => None
  | Some id => if (id =? 0)%Z then None else moodboards this !! id
  end.

(** ** The request handlers (server/routes.ts) *)

Module MoodboardResponse.
Record t : Type := {
  id : Z;
  mood : string;
  quote : string;
  images : list js_value;      (* declared [string[]] *)
  colors : js (list string);
  spotifyPlaylistId : option (js string);   (* [None] is [undefined] *)
  shareId : string;
  createdAt : Z                             (* the instant [toISOString] prints *)
}.
End MoodboardResponse.

Inductive payload : Type :=
| MoodJson (mood : string)                          (* [{ mood }] *)
| MoodboardJson (moodboard : MoodboardResponse.t)
| MessageOf (error : exn)                           (* [{ message: error.message }] *)
| MessageJson (message : string).                   (* [{ message }] *)

(** [res.status(code).json(sent)]; [res.json] alone answers 200. *)
Record reply : Type := { code : Z; sent : payload }.

(** What the outside world answers during one request. *)
Record World : Type := {
  fetched : result Response;            (* the image search *)
  completion : result ChatCompletion;   (* the chat completion *)
  nanoid : string;                      (* [nanoid(10)] *)
  now : Z                               (* [new Date()] *)
}.

Definition toResponse (moodboard : Moodboard) : MoodboardResponse.t :=
  {| MoodboardResponse.id := id moodboard;
     MoodboardResponse.mood := mood moodboard;
     MoodboardResponse.quote := quote moodboard;
     MoodboardResponse.images := images moodboard;
     MoodboardResponse.colors := colors moodboard;
     MoodboardResponse.spotifyPlaylistId := or_null (spotifyPlaylistId moodboard);
     MoodboardResponse.shareId := shareId moodboard;
     MoodboardResponse.createdAt := createdAt moodboard |}.

(** [POST /api/analyze-mood] *)
Definition post_analyze_mood (env : Env) (body : json_value) (w : World) : reply :=
  match
    (let! image := analyzeMoodFromImageSchema_parse body in
     let! detectedMood := analyzeMoodFromImage (openai_apiKey env) image (completion w) in
     Ok {| code := 200; sent := MoodJson detectedMood |})
  with
  | Ok r => r
  | Throw error => {| code := 500; sent := MessageOf error |}
  end.

(** [POST /api/moodboards]; the store is threaded through. Of the two
    promises joined by [Promise.all], the image one is first to settle
    when it rejects before its first [await], so a missing image key is
    reported before a missing chat key. *)
Definition post_moodboards (env : Env) (storage : MemStorage) (body : json_value)
    (w : World) : MemStorage * reply :=
  match
    (let! mood := generateMoodboardSchema_parse body in
     let! images := fetchUnsplashImages (UNSPLASH_KEY env) mood (fetched w) in
     let! quote := generateAIQuote (openai_apiKey env) mood (completion w) in
     let colors := getColorsForMood mood in
     let spotifyPlaylistId := getPlaylistForMood mood in
     let shareId := nanoid w in
     let (storage', moodboard) :=
       createMoodboard storage
         {| InsertMoodboard.mood := mood;
            InsertMoodboard.quote := quote;
            InsertMoodboard.images := images;
            InsertMoodboard.colors := colors;
            InsertMoodboard.spotifyPlaylistId := Some spotifyPlaylistId;
            InsertMoodboard.shareId := shareId |}
         (now w) in
     Ok (storage', {| code := 200; sent := MoodboardJson (toResponse moodboard) |}))
  with
  | Ok r => r
  | Throw error => (storage, {| code := 500; sent := MessageOf error |})
  end.

(** [GET /api/moodboards/:shareId] *)
Definition get_moodboard (storage : MemStorage) (shareId : string) : reply :=
  match getMoodboardByShareId storage shareId with
  | None => {| code := 404; sent := MessageJson "Moodboard not found" |}
  | Some moodboard => {| code := 200; sent := MoodboardJson (toResponse moodboard) |}
  end.

(** A run of [createMoodboard] calls, each with its clock reading; the
    records come back in creation order. *)
Fixpoint creates (this : MemStorage) (calls : list (InsertMoodboard.t * Z))
  : MemStorage * list Moodboard :=
  match calls with
  | [] => (this, [])
  | (insertMoodboard, now) :: rest =>
      let (this', moodboard) := createMoodboard this insertMoodboard now in
      let (final, others) := creates this' rest in
      (final, moodboard :: others)
  end.

(** ** The components as the specification words them *)

(** Color Mapper: exact key, else first entry that matches as a
    substring either way, else the default palette. *)
Definition spec_ColorMapper (mood : string) : list string :=
  let lowered := toLowerCase mood in
  match own moodColorMap lowered with
  | Some palette => palette
  | None =>
      match first_partial moodColorMap lowered with
      | Some palette => palette
      | None => defaultColors
      end
  end.

(** Playlist Mapper: the same three cases over its own table. *)
Definition spec_PlaylistMapper (mood : string) : string :=
  let lowered := toLowerCase mood in
  match own moodPlaylistMap lowered with
  | Some playlist => playlist
  | None =>
      match first_partial moodPlaylistMap lowered with
      | Some playlist => playlist
      | None => defaultPlaylist
      end
  end.

(** What precedes the first white space. *)
Fixpoint until_space (s : string) : string :=
  match s with
  | EmptyString => EmptyString
  | String c s' => if is_space c then EmptyString else String c (until_space s')
  end.

(** Image classifier: the first whitespace-delimited token of the
    response, lower-cased, without its non-alphabetic characters. *)
Definition spec_first_word (response : string) : string :=
  replace_non_a_z (toLowerCase (until_space (trimStart response))).

(** ** When an external call counts as failed *)

Definition has_urls (photo : Photo) : bool :=
  match urls_regular photo with Some _ => true | None => false end.

(** The image search failed: the call rejected, the status is not 2xx,
    or reading the body throws (it is not JSON, it has no [results]
    array, or the [urls] of one of its photos cannot be read). *)
Definition search_failed (fetched : result Response) : bool :=
  match fetched with
  | Throw _ => true
  | Ok response =>
      negb (ok response)
      || match json response with
         | None => true
         | Some data =>
             match results data with
             | None => true
             | Some photos => negb (forallb has_urls photos)
             end
         end
  end.

(** A chat completion: the call rejected, it has no first choice, or the
    content of the first choice is [null]. *)
Definition chat_failed (completion : result ChatCompletion) : bool :=
  match completion with
  | Throw _ => true
  | Ok response =>
      match choices response with
      | [] => true
      | first :: _ => match content first with None => true | Some _ => false end
      end
  end.

(** A configuration without any credential, and one with both. *)
Definition no_credentials : Env :=
  {| OPENAI_API_KEY := None; OPENAI_API_KEY_ENV_VAR := None;
     UNSPLASH_ACCESS_KEY := None; UNSPLASH_API_KEY := None |}.

Definition both_credentials : Env :=
  {| OPENAI_API_KEY := Some "sk-test"; OPENAI_API_KEY_ENV_VAR := None;
     UNSPLASH_ACCESS_KEY := Some "unsplash-test"; UNSPLASH_API_KEY := None |}.

(** A world where every external call fails. *)
Definition offline : World :=
  {| fetched := Throw (ServiceError "fetch failed");
     completion := Throw (ServiceError "Connection error.");
     nanoid := "V1StGXR8_Z";
     now := 1700000000000 |}.

(** A completion whose first choice carries [text]. *)
Definition answering (text : string) (others : list ChatMessage)
  : result ChatCompletion :=
  Ok {| choices := {| content := Some text |} :: others |}.

(** A response of two lines, the words split by a line feed. *)
Definition two_lines : string := "happy" +:+ String (ascii_of_nat 10) "sad".

(** ** Requests used as examples *)

Definition image_body : json_value := JObject [("image", JString "aGFwcHk=")].

Definition empty_mood_body : json_value := JObject [("mood", JString EmptyString)].

(** The ways a [mood] member fails the generate schema: it is absent,
    it is not a string, it is empty, or it has more than 100 code units. *)
Inductive invalid_mood : option json_value -> Prop :=
| mood_absent : invalid_mood None
| mood_not_string (v : json_value) :
    (forall s, v <> JString s) -> invalid_mood (Some v)
| mood_empty : invalid_mood (Some (JString EmptyString))
| mood_too_long (s : string) :
    (100 < String.length s)%nat -> invalid_mood (Some (JString s)).

(** The share identifiers of a run of calls. *)
Definition shareIds (calls : list (InsertMoodboard.t * Z)) : list string :=
  map (fun call => InsertMoodboard.shareId (fst call)) calls.

(** Two inserts with different share identifiers. *)
Definition insert_happy : InsertMoodboard.t :=
  {| InsertMoodboard.mood := "happy";
     InsertMoodboard.quote := fallbackQuote "happy";
     InsertMoodboard.images := fallbackImages;
     InsertMoodboard.colors := getColorsForMood "happy";
     InsertMoodboard.spotifyPlaylistId := Some (getPlaylistForMood "happy");
     InsertMoodboard.shareId := "V1StGXR8_Z" |}.

Definition insert_angry : InsertMoodboard.t :=
  {| InsertMoodboard.mood := "angry";
     InsertMoodboard.quote := fallbackQuote "angry";
     InsertMoodboard.images := fallbackImages;
     InsertMoodboard.colors := getColorsForMood "angry";
     InsertMoodboard.spotifyPlaylistId := None;
     InsertMoodboard.shareId := "3fQ9xLw0aB" |}.

Definition two_calls : list (InsertMoodboard.t * Z) :=
  [ (insert_happy, 1700000000000%Z); (insert_angry, 1700000000001%Z) ].

(** ** Invariant of the store *)

(** Every character of the string passes the test. *)
Fixpoint every (test : ascii -> bool) (s : string) : bool :=
  match s with
  | EmptyString => true
  | String c s' => test c && every test s'
  end.

(** The two maps of a store agree: a record sits under its own
    identifier, identifiers are those already handed out, and the index
    leads from a share identifier to a record that carries it. *)
Record consistent (this : MemStorage) : Prop := {
  currentId_positive : (1 <= currentId this)%Z;
  moodboards_keys : forall i m,
    moodboards this !! i = Some m -> id m = i /\ (1 <= i < currentId this)%Z;
  shareIdMap_sound : forall sh i,
    shareIdMap this !! sh = Some i ->
    exists m, moodboards this !! i = Some m /\ shareId m = sh
}.

(** ** The mood form (client/src/components/mood-input.tsx) *)

(** The labels of [suggestedMoods]. *)
Definition suggestedMoods : list string :=
  ["Happy"; "Peaceful"; "Motivated"; "Dreamy"].

(** What [handleSubmit] does: the toast that asks for a mood, or
    [generateMoodboard.mutate] with the body it posts to
    [/api/moodboards]. *)
Inductive submission : Type :=
| MoodRequired
| Mutate (body : json_value).

Definition handleSubmit (mood : string) : submission :=
  if negb (truthy (trim mood)) then MoodRequired
  else Mutate (JObject [("mood", JString (trim mood))]).

(** ** The download name (client/src/components/moodboard-display.tsx) *)

(** [s.replace(/\s+/g, "-")]: every maximal run of white space becomes
    one dash; [in_run] tells that the previous character was white space. *)
Fixpoint replace_space_runs (in_run : bool) (s : string) : string :=
  match s with
  | EmptyString => EmptyString
  | String c s' =>
      if is_space c
      then if in_run then replace_space_runs true s'
           else String "-" (replace_space_runs true s')
      else String c (replace_space_runs false s')
  end.

(** [link.download] in [handleDownload] *)
Definition download_name (mood : string) : string :=
  "moodboard-" +:+ replace_space_runs false (toLowerCase mood) +:+ ".png".

Definition is_upper_a_z (c : ascii) : bool :=
  let n := N_of_ascii c in ((65 <=? n) && (n <=? 90))%N.

(** ** The image heuristic (client/src/lib/opencv-processor.ts) *)

Module OpenCVProcessor.
Import PrimFloat.
#[local] Set Warnings "-inexact-float".

(** Numbers are binary64 floats, as in the source. *)
Record FaceAnalysis : Type := {
  faceDetected : bool;
  faceCount : Z;
  avgBrightness : float;
  dominantColors : list string;
  edgeIntensity : float;
  contrast : float
}.

Definition getDefaultAnalysis : FaceAnalysis :=
  {| faceDetected := false;
     faceCount := 0;
     avgBrightness := 128%float;
     dominantColors := ["#808080"];
     edgeIntensity := 0.3%float;
     contrast := 0.5%float |}.

(** One pixel of [imageData.data]: red, green, blue and alpha, each a
    byte. *)
Record Pixel : Type := { red : Z; green : Z; blue : Z; alpha : Z }.

Definition channel (byte : Z) : float := of_uint63 (Uint63.of_Z byte).

(** The body of the loop over the pixels. *)
Definition add_brightness (totalBrightness : float) (px : Pixel) : float :=
  (totalBrightness
   + (0.299 * channel (red px) + 0.587 * channel (green px)
      + 0.114 * channel (blue px)))%float.

(** What the canvas gives to [fallbackAnalysis]. *)
Inductive Canvas : Type :=
| NoContext                      (* [getContext('2d')] is [null] *)
| DrawFails (error : exn)        (* [drawImage] throws *)
| ReadFails (error : exn)        (* [getImageData] throws *)
| ImageData (data : list Pixel).

Definition fallbackAnalysis (canvas : Canvas) : result FaceAnalysis :=
  match canvas with
  | NoContext => Ok getDefaultAnalysis
  | DrawFails error => Throw error
  | ReadFails _ => Ok getDefaultAnalysis
  | ImageData data =>
      let totalBrightness := fold_left add_brightness data 0%float in
      let totalPixels := of_uint63 (Uint63.of_Z (Z.of_nat (List.length data))) in
      let avgBrightness := (totalBrightness / totalPixels)%float in
      Ok {| faceDetected := true;
            faceCount := 1;
            avgBrightness := avgBrightness;
            dominantColors := ["#808080"; "#A0A0A0"];
            edgeIntensity := 0.3%float;
            contrast := if (128 <? avgBrightness)%float then 0.7%float
                        else 0.4%float |}
  end.

(** What OpenCV measures on the image: [cv.mean(gray)[0]],
    [stdMat.doubleAt(0, 0)], [cv.countNonZero(edges)], [edges.rows] and
    [edges.cols]. *)
Record Readings : Type := {
  mean_0 : float;
  stdDev : float;
  edgePixels : float;
  rows : float;
  cols : float
}.

Definition extractDominantColors : list string :=
  ["#808080"; "#A0A0A0"; "#606060"].

Definition performImageAnalysis (cv : Readings) : FaceAnalysis :=
  let totalPixels := (rows cv * cols cv)%float in
  {| faceDetected := true;
     faceCount := 1;
     avgBrightness := mean_0 cv;
     dominantColors := extractDominantColors;
     edgeIntensity := (edgePixels cv / totalPixels)%float;
     contrast := stdDev cv |}.

(** [cv] is [None] when OpenCV is not ready, else the outcome of its
    calls on the image. *)
Definition analyzeFacialFeatures (cv : option (result Readings)) (canvas : Canvas)
  : result FaceAnalysis :=
  match cv with
  | None => fallbackAnalysis canvas
  | Some measured =>
      catch (let! readings := measured in Ok (performImageAnalysis readings))
            (fun _ => fallbackAnalysis canvas)
  end.

Definition getMoodFromAnalysis (analysis : FaceAnalysis) : string :=
  let avgBrightness := avgBrightness analysis in
  let contrast := contrast analysis in
  let edgeIntensity := edgeIntensity analysis in
  if (150 <? avgBrightness)%float && (0.6 <? contrast)%float then "happy"
  else if (avgBrightness <? 80)%float && (contrast <? 0.4)%float then "peaceful"
  else if (0.4 <? edgeIntensity)%float then "excited"
  else if (100 <=? avgBrightness)%float && (avgBrightness <=? 150)%float
       then "motivated"
  else "peaceful".

End OpenCVProcessor.

(** Two inserts that reuse one share identifier. *)
Definition reused_calls : list (InsertMoodboard.t * Z) :=
  [ (insert_happy, 1700000000000%Z); (insert_happy, 1700000000005%Z) ].

Definition happy_body : json_value := JObject [("mood", JString "happy")].

(** ** Properties of the string functions *)

Section Strings.

Lemma lower_char_idem (c : ascii) : lower_char (lower_char c) = lower_char c.
Proof. destruct c as [[] [] [] [] [] [] [] []]; reflexivity. Qed.

Lemma toLowerCase_idem (s : string) : toLowerCase (toLowerCase s) = toLowerCase s.
Proof.
  induction s as [|c s IH]; simpl; [reflexivity|].
  now rewrite lower_char_idem, IH.
Qed.

Lemma lower_char_space (c : ascii) : is_space (lower_char c) = is_space c.
Proof. destruct c as [[] [] [] [] [] [] [] []]; reflexivity. Qed.

Lemma lower_char_eqb_space (c : ascii) :
  Ascii.eqb (lower_char c) " " = Ascii.eqb c " ".
Proof. destruct c as [[] [] [] [] [] [] [] []]; reflexivity. Qed.

Lemma truthy_toLowerCase (s : string) : truthy (toLowerCase s) = truthy s.
Proof. destruct s; reflexivity. Qed.

Lemma truthy_false (s : string) : truthy s = false -> s = EmptyString.
Proof. destruct s; [reflexivity | discriminate]. Qed.

Lemma or_else_truthy (a b : string) : truthy a = true -> or_else a b = a.
Proof. unfold or_else. now intros ->. Qed.

Lemma split_space_0_toLowerCase (s : string) :
  split_space_0 (toLowerCase s) = toLowerCase (split_space_0 s).
Proof.
  induction s as [|c s IH]; cbn [toLowerCase split_space_0]; [reflexivity|].
  rewrite lower_char_eqb_space.
  destruct (Ascii.eqb c " "); [reflexivity|].
  cbn [toLowerCase]. now rewrite IH.
Qed.

Lemma trimEnd_empty_until_space (s : string) :
  trimEnd s = EmptyString -> until_space s = EmptyString.
Proof.
  destruct s as [|c s]; [reflexivity|]. cbn [trimEnd until_space].
  destruct (trimEnd s); [|discriminate].
  destruct (is_space c); [reflexivity | discriminate].
Qed.

Lemma is_space_eqb_space (c : ascii) :
  Ascii.eqb c " " = true -> is_space c = true.
Proof. intros H. apply Ascii.eqb_eq in H. now subst c. Qed.

Lemma trimEnd_cons_empty (c : ascii) (s : string) :
  trimEnd s = EmptyString ->
  trimEnd (String c s) = if is_space c then EmptyString else String c EmptyString.
Proof. intros H. cbn [trimEnd]. now rewrite H. Qed.

Lemma trimEnd_cons (c : ascii) (s : string) :
  trimEnd s <> EmptyString -> trimEnd (String c s) = String c (trimEnd s).
Proof. intros H. cbn [trimEnd]. now destruct (trimEnd s). Qed.

(** When no white space comes before the first U+0020 of a text
    trimmed at its end, cutting it there and cutting the text at its
    first white space give the same word. *)
Lemma split_trimEnd_first_token (s : string) :
  every (fun c => negb (is_space c)) (split_space_0 (trimEnd s)) = true ->
  split_space_0 (trimEnd s) = until_space s.
Proof.
  induction s as [|c s IH]; [reflexivity|].
  cbn [until_space].
  destruct (string_dec (trimEnd s) EmptyString) as [Et|Et].
  - rewrite (trimEnd_cons_empty c s Et).
    destruct (is_space c) eqn:Ec; [reflexivity|].
    intros _. cbn [split_space_0].
    destruct (Ascii.eqb c " ") eqn:E.
    + apply is_space_eqb_space in E. congruence.
    + now rewrite (trimEnd_empty_until_space s Et).
  - rewrite (trimEnd_cons c s Et). cbn [split_space_0].
    destruct (Ascii.eqb c " ") eqn:E.
    + intros _. now rewrite (is_space_eqb_space c E).
    + cbn [every]. intros H. apply andb_true_iff in H as [Hc Hrest].
      apply negb_true_iff in Hc. rewrite Hc.
      now rewrite (IH Hrest).
Qed.

Lemma prefix_append (t s : string) :
  String.prefix t s = true <-> exists b, s = t +:+ b.
Proof.
  revert s. induction t as [|c t IH]; intros s; simpl.
  - split; [intros _; now exists s | intros _; now destruct s].
  - destruct s as [|c' s]; simpl.
    + split; [discriminate | intros [b H]; discriminate H].
    + destruct (ascii_dec c c') as [->|Hne].
      * rewrite IH. split; intros [b H]; exists b; [now rewrite H | now injection H].
      * split; [discriminate | intros [b H]; injection H as -> _; now destruct Hne].
Qed.

(** [includes s t] holds exactly when [t] occurs inside [s]. *)
Lemma includes_correct (s t : string) :
  includes s t = true <-> exists a b, s = a +:+ t +:+ b.
Proof.
  induction s as [|c s IH]; cbn [includes].
  - rewrite orb_false_r, prefix_append. split.
    + intros [b H]. exists EmptyString, b. exact H.
    + intros [[|c a] [b H]]; [now exists b | discriminate H].
  - rewrite orb_true_iff, prefix_append, IH. split.
    + intros [[b H] | (a & b & H)].
      * exists EmptyString, b. exact H.
      * exists (String c a), b. simpl. now rewrite H.
    + intros ([|c' a] & b & H).
      * left. now exists b.
      * right. exists a, b. simpl in H. now injection H.
Qed.

(** Every key contains the empty mood. *)
Lemma partial_match_empty (key : string) : partial_match EmptyString key = true.
Proof.
  unfold partial_match. apply orb_true_iff. right.
  apply includes_correct. now exists EmptyString, key.
Qed.

Lemma replace_non_a_z_only (s : string) :
  replace_non_a_z (replace_non_a_z s) = replace_non_a_z s.
Proof.
  induction s as [|c s IH]; simpl; [reflexivity|].
  destruct (is_a_z c) eqn:E; simpl; [now rewrite E, IH | exact IH].
Qed.

End Strings.


(** ** The mood mappers *)

Section Mappers.

Lemma own_In {A} (o : object A) (k : string) (v : A) :
  own o k = Some v -> In (k, v) o.
Proof.
  induction o as [|[k' v'] o IH]; simpl; [discriminate|].
  destruct (String.eqb k k') eqn:E.
  - intros [= ->]. apply String.eqb_eq in E. subst. now left.
  - intros H. right. now apply IH.
Qed.

Lemma first_partial_In {A} (o : object A) (lowerMood : string) (v : A) :
  first_partial o lowerMood = Some v ->
  exists key, In (key, v) o /\ partial_match lowerMood key = true.
Proof.
  induction o as [|[key v'] o IH]; simpl; [discriminate|].
  destruct (partial_match lowerMood key) eqn:E.
  - intros [= ->]. exists key. split; [now left | exact E].
  - intros H. destruct (IH H) as (key' & Hin & Hm).
    exists key'. split; [now right | exact Hm].
Qed.

(** The entry returned by the loop is the first one that matches. *)
Lemma first_partial_first {A} (o : object A) (lowerMood : string) (v : A) :
  first_partial o lowerMood = Some v ->
  exists before key after,
    o = (before ++ (key, v) :: after)%list
    /\ partial_match lowerMood key = true
    /\ forall kv, In kv before -> partial_match lowerMood (fst kv) = false.
Proof.
  induction o as [|[key v'] o IH]; simpl; [discriminate|].
  destruct (partial_match lowerMood key) eqn:E.
  - intros [= ->]. exists [], key, o. repeat split; [exact E | intros ? []].
  - intros H. destruct (IH H) as (before & key' & after & -> & Hm & Hb).
    exists ((key, v') :: before), key', after. repeat split; [exact Hm|].
    intros kv [<- | Hin]; [exact E | now apply Hb].
Qed.

(** A lower-cased mood can only meet two of the inherited names. *)
Lemma inherited_lowered (mood : string) :
  inherited (toLowerCase mood) = true ->
  toLowerCase mood = "constructor" \/ toLowerCase mood = "__proto__".
Proof.
  intros H. unfold inherited in H. apply existsb_exists in H as (name & Hin & Heq).
  apply String.eqb_eq in Heq.
  assert (Hfix : toLowerCase name = name)
    by (rewrite <- Heq; apply toLowerCase_idem).
  simpl in Hin.
  repeat (destruct Hin as [<- | Hin]; [try discriminate Hfix; auto|]).
  destruct Hin.
Qed.

(** Away from the inherited names the code computes the three cases of
    the specification. *)
Lemma getColorsForMood_spec (mood : string) :
  inherited (toLowerCase mood) = false ->
  getColorsForMood mood = Val (spec_ColorMapper mood).
Proof.
  intros H. unfold getColorsForMood, spec_ColorMapper, get.
  destruct (own moodColorMap (toLowerCase mood)); [reflexivity|].
  rewrite H. now destruct (first_partial moodColorMap (toLowerCase mood)).
Qed.

Lemma spec_ColorMapper_nonempty (mood : string) : spec_ColorMapper mood <> [].
Proof.
  assert (Hall : forall k v, In (k, v) moodColorMap -> v <> []).
  { intros k v Hin. simpl in Hin.
    repeat (destruct Hin as [[= <- <-] | Hin]; [discriminate|]). destruct Hin. }
  unfold spec_ColorMapper.
  destruct (own moodColorMap (toLowerCase mood)) eqn:E.
  - apply own_In in E. eapply Hall, E.
  - destruct (first_partial moodColorMap (toLowerCase mood)) eqn:F.
    + apply first_partial_In in F as (key & Hin & _). eapply Hall, Hin.
    + discriminate.
Qed.

Lemma moodPlaylistMap_truthy (k v : string) :
  own moodPlaylistMap k = Some v -> truthy v = true.
Proof.
  intros H. apply own_In in H. simpl in H.
  repeat (destruct H as [[= <- <-] | H]; [reflexivity|]). destruct H.
Qed.

Lemma getPlaylistForMood_spec (mood : string) :
  inherited (toLowerCase mood) = false ->
  getPlaylistForMood mood = Val (spec_PlaylistMapper mood).
Proof.
  intros H. unfold getPlaylistForMood, spec_PlaylistMapper, get.
  destruct (own moodPlaylistMap (toLowerCase mood)) eqn:E.
  - simpl. now rewrite (moodPlaylistMap_truthy _ _ E).
  - rewrite H. now destruct (first_partial moodPlaylistMap (toLowerCase mood)).
Qed.

(** The playlist table covers a strict part of the colour table's moods. *)
Lemma playlist_keys_strict_subset :
  incl (keys moodPlaylistMap) (keys moodColorMap)
  /\ In "angry" (keys moodColorMap) /\ ~ In "angry" (keys moodPlaylistMap).
Proof.
  repeat split.
  - intros k Hin. simpl in Hin |- *. intuition.
  - simpl. intuition.
  - simpl. intros H. repeat (destruct H as [H | H]; [discriminate H|]). exact H.
Qed.

(** A mood that meets no playlist key gets the default, which is the
    playlist of "happy". *)
Lemma getPlaylistForMood_unmatched (mood : string) :
  inherited (toLowerCase mood) = false ->
  own moodPlaylistMap (toLowerCase mood) = None ->
  first_partial moodPlaylistMap (toLowerCase mood) = None ->
  getPlaylistForMood mood = Val defaultPlaylist
  /\ getPlaylistForMood "happy" = Val defaultPlaylist.
Proof.
  intros Hi Ho Hp. split; [|reflexivity].
  rewrite (getPlaylistForMood_spec _ Hi). unfold spec_PlaylistMapper.
  now rewrite Ho, Hp.
Qed.

(** C5. The Color Mapper is specified as: lower-case the mood, return the
    palette of the exact key, else of the first entry that matches as a
    substring either way, else the default palette of four colours,
    never an empty result. On the mood "constructor", which meets no key
    either way, the specified result is the default palette, but the
    code returns the member of that name that the table object inherits,
    which is no palette at all. *)
Theorem getColorsForMood_constructor :
  own moodColorMap (toLowerCase "constructor") = None
  /\ first_partial moodColorMap (toLowerCase "constructor") = None
  /\ spec_ColorMapper "constructor" = defaultColors
  /\ getColorsForMood "constructor" = Proto "constructor".
Proof. repeat split. Qed.

(** C6. The Playlist Mapper is specified to follow the three cases of
    the Color Mapper over a table whose keys are a strict part of the
    colour keys, and to give the default identifier to every mood that
    meets no key. The mood "constructor" meets no playlist key, yet the
    code returns the inherited member of that name instead of the
    default identifier. *)
Theorem getPlaylistForMood_constructor :
  own moodPlaylistMap (toLowerCase "constructor") = None
  /\ first_partial moodPlaylistMap (toLowerCase "constructor") = None
  /\ spec_PlaylistMapper "constructor" = defaultPlaylist
  /\ getPlaylistForMood "constructor" = Proto "constructor".
Proof. repeat split. Qed.

(** C9. A mood that meets no playlist key, exactly or as a substring, is
    specified to get "37i9dQZF1DX0XUsuxWHRQd", the identifier of "happy".
    The mood "__proto__" meets no key, the identifier of "happy" is the
    default one, yet the code returns the prototype object for it. *)
Theorem getPlaylistForMood_proto :
  own moodPlaylistMap (toLowerCase "__proto__") = None
  /\ first_partial moodPlaylistMap (toLowerCase "__proto__") = None
  /\ getPlaylistForMood "happy" = Val "37i9dQZF1DX0XUsuxWHRQd"
  /\ getPlaylistForMood "__proto__" = Proto "__proto__"
  /\ getPlaylistForMood "__proto__" <> getPlaylistForMood "happy".
Proof. repeat split. discriminate. Qed.

End Mappers.


(** ** The adapters of the external services *)

Section Adapters.

Lemma map_urls_regular_total (photos : list Photo) :
  if forallb has_urls photos
  then exists urls, map_urls_regular photos = Ok urls
  else map_urls_regular photos = Throw TypeError.
Proof.
  induction photos as [|photo rest IH]; simpl; [now exists []|].
  unfold has_urls at 1. destruct (urls_regular photo) as [url|]; simpl; [|reflexivity].
  destruct (forallb has_urls rest).
  - destruct IH as [urls ->]. now exists (url :: urls).
  - now rewrite IH.
Qed.

Lemma fetchUnsplashImages_no_key (mood : string) (fetched : result Response) :
  fetchUnsplashImages EmptyString mood fetched
  = Throw (Error "Unsplash API key not configured").
Proof. reflexivity. Qed.

Lemma generateAIQuote_no_key (mood : string) (completion : result ChatCompletion) :
  generateAIQuote EmptyString mood completion
  = Throw (Error "OpenAI API key not configured").
Proof. reflexivity. Qed.

Lemma analyzeMoodFromImage_no_key (image : string) (completion : result ChatCompletion) :
  analyzeMoodFromImage EmptyString image completion
  = Throw (Error "OpenAI API key not configured").
Proof. reflexivity. Qed.

Lemma analyzeMoodFromImage_total (apiKey image : string)
    (completion : result ChatCompletion) :
  truthy apiKey = true ->
  exists detectedMood, analyzeMoodFromImage apiKey image completion = Ok detectedMood.
Proof.
  intros H. unfold analyzeMoodFromImage. rewrite H. simpl.
  destruct completion as [[[|first others]]|e]; simpl; eauto.
Qed.

(** With a key, the classifier answers the cleaned first word of a text
    that is not blank. *)
Lemma analyzeMoodFromImage_text (apiKey image text : string)
    (others : list ChatMessage) :
  truthy apiKey = true ->
  truthy (trim text) = true ->
  analyzeMoodFromImage apiKey image (answering text others)
  = Ok (replace_non_a_z (split_space_0 (toLowerCase (trim text)))).
Proof.
  intros Hk Ht. unfold analyzeMoodFromImage, answering. rewrite Hk. simpl.
  rewrite or_else_truthy; [reflexivity|]. now rewrite truthy_toLowerCase.
Qed.

(** A blank text is answered like a failure. *)
Lemma analyzeMoodFromImage_blank (apiKey image text : string)
    (others : list ChatMessage) :
  truthy apiKey = true ->
  truthy (trim text) = false ->
  analyzeMoodFromImage apiKey image (answering text others) = Ok fallbackMood.
Proof.
  intros Hk Ht. unfold analyzeMoodFromImage, answering. rewrite Hk. simpl.
  apply truthy_false in Ht. rewrite Ht. reflexivity.
Qed.

(** The classifier only ever answers letters a-z. *)
Lemma analyzeMoodFromImage_letters (apiKey image detectedMood : string)
    (completion : result ChatCompletion) :
  analyzeMoodFromImage apiKey image completion = Ok detectedMood ->
  replace_non_a_z detectedMood = detectedMood.
Proof.
  unfold analyzeMoodFromImage. destruct (truthy apiKey); simpl; [|discriminate].
  destruct completion as [[[|first others]]|e]; simpl; intros [= <-];
    try reflexivity.
  apply replace_non_a_z_only.
Qed.

Lemma generateAIQuote_with_key_total (apiKey mood : string)
    (completion : result ChatCompletion) :
  truthy apiKey = true ->
  exists quote, generateAIQuote apiKey mood completion = Ok quote.
Proof.
  intros H. unfold generateAIQuote. rewrite H. simpl.
  destruct completion as [[[|[[text|]] others]]|e]; simpl; eauto.
Qed.

Lemma fetchUnsplashImages_with_key_total (key mood : string)
    (fetched : result Response) :
  truthy key = true ->
  exists images, fetchUnsplashImages key mood fetched = Ok images.
Proof.
  intros H. unfold fetchUnsplashImages. rewrite H. simpl.
  destruct fetched as [response|e]; simpl; [|eauto].
  destruct (ok response); simpl; [|eauto].
  destruct (json response) as [[[photos|]]|]; simpl; eauto.
  pose proof (map_urls_regular_total photos) as Hm.
  destruct (forallb has_urls photos).
  - destruct Hm as [urls ->]. simpl. eauto.
  - rewrite Hm. simpl. eauto.
Qed.

(** C1, as amended. With the text-generation credential present,
    [generateAIQuote] returns a quote for every mood and every outcome of
    the external call, and never raises: when the call rejects or the
    response has no first choice or no content, the quote is the
    template around the mood. With the credential absent it raises
    "OpenAI API key not configured". *)
Theorem generateAIQuote_with_key (apiKey mood : string)
    (completion : result ChatCompletion) :
  truthy apiKey = true ->
  (exists quote, generateAIQuote apiKey mood completion = Ok quote)
  /\ (chat_failed completion = true ->
      generateAIQuote apiKey mood completion = Ok (fallbackQuote mood))
  /\ generateAIQuote EmptyString mood completion
     = Throw (Error "OpenAI API key not configured").
Proof.
  intros H. unfold generateAIQuote at 1 2. rewrite H. simpl.
  destruct completion as [[[|[[text|]] others]]|e]; simpl;
    repeat split; eauto; discriminate.
Qed.

Lemma generateAIQuote_with_key_witness :
  (exists quote, generateAIQuote "sk-test" "happy" (completion offline) = Ok quote)
  /\ generateAIQuote "sk-test" "happy" (completion offline)
     = Ok (fallbackQuote "happy")
  /\ generateAIQuote EmptyString "happy" (completion offline)
     = Throw (Error "OpenAI API key not configured").
Proof.
  destruct (generateAIQuote_with_key "sk-test" "happy" (completion offline) eq_refl)
    as (H1 & H2 & H3).
  split; [exact H1 | split; [exact (H2 eq_refl) | exact H3]].
Defined.

(** C1, as stated, fails: without the credential the call raises. *)
Lemma generateAIQuote_raises_without_key :
  ~ exists quote,
      generateAIQuote (openai_apiKey no_credentials) "happy" (completion offline)
      = Ok quote.
Proof. intros [quote H]. discriminate H. Qed.

(** C2, as amended. With the image-search credential present,
    [fetchUnsplashImages] returns a list for every mood and every
    outcome of the search, and never raises: on any error, be it a
    network failure or a status that is not a success, the list is the
    fixed one of 4 placeholders. With the credential absent it raises
    "Unsplash API key not configured". *)
Theorem fetchUnsplashImages_with_key (key mood : string)
    (fetched : result Response) :
  truthy key = true ->
  (exists images, fetchUnsplashImages key mood fetched = Ok images)
  /\ (search_failed fetched = true ->
      fetchUnsplashImages key mood fetched = Ok fallbackImages)
  /\ List.length fallbackImages = 4%nat
  /\ fetchUnsplashImages EmptyString mood fetched
     = Throw (Error "Unsplash API key not configured").
Proof.
  intros H. unfold fetchUnsplashImages at 1 2. rewrite H. simpl.
  destruct fetched as [response|e]; simpl; [|repeat split; eauto].
  destruct (ok response); simpl; [|repeat split; eauto].
  destruct (json response) as [[[photos|]]|]; simpl;
    try (repeat split; eauto; fail).
  pose proof (map_urls_regular_total photos) as Hm.
  destruct (forallb has_urls photos); simpl.
  - destruct Hm as [urls ->]. simpl. repeat split; eauto. discriminate.
  - rewrite Hm. simpl. repeat split; eauto.
Qed.

Lemma fetchUnsplashImages_with_key_witness :
  (exists images,
      fetchUnsplashImages "unsplash-test" "happy"
        (Ok {| status := 403; json := None |}) = Ok images)
  /\ fetchUnsplashImages "unsplash-test" "happy"
       (Ok {| status := 403; json := None |}) = Ok fallbackImages
  /\ List.length fallbackImages = 4%nat
  /\ fetchUnsplashImages EmptyString "happy"
       (Ok {| status := 403; json := None |})
     = Throw (Error "Unsplash API key not configured").
Proof.
  destruct (fetchUnsplashImages_with_key "unsplash-test" "happy"
              (Ok {| status := 403; json := None |}) eq_refl)
    as (H1 & H2 & H3 & H4).
  split; [exact H1 | split; [exact (H2 eq_refl) | split; [exact H3 | exact H4]]].
Defined.

(** A photo whose [urls] has no [regular] is no error: the undefined
    value is returned in the list, and the placeholders are not used. *)
Lemma fetchUnsplashImages_regular_missing :
  fetchUnsplashImages "unsplash-test" "happy"
    (Ok {| status := 200;
           json := Some {| results := Some [ {| urls_regular := Some None |} ] |} |})
  = Ok [None].
Proof. reflexivity. Qed.

(** C2, as stated, fails: without the credential the call raises. *)
Lemma fetchUnsplashImages_raises_without_key :
  ~ exists images,
      fetchUnsplashImages (UNSPLASH_KEY no_credentials) "happy" (fetched offline)
      = Ok images.
Proof. intros [images H]. discriminate H. Qed.

End Adapters.


(** ** The image classifier and its handler *)

Section Classifier.

(** C3, as amended. With the vision credential present,
    [analyzeMoodFromImage] never raises for any image payload, and
    returns "peaceful" whenever the external call rejects or its
    response has no first choice or no content; the analyze-mood handler
    then fails, with status 500, exactly when the body fails validation.
    With the credential absent the classifier raises "OpenAI API key not
    configured" and the handler answers a valid body with status 500 and
    that message. *)
Theorem analyze_mood_with_key (env : Env) (body : json_value) (w : World) :
  truthy (openai_apiKey env) = true ->
  (forall image, exists detectedMood,
      analyzeMoodFromImage (openai_apiKey env) image (completion w)
      = Ok detectedMood)
  /\ (chat_failed (completion w) = true ->
      forall image,
        analyzeMoodFromImage (openai_apiKey env) image (completion w)
        = Ok "peaceful")
  /\ (code (post_analyze_mood env body w) = 500%Z
      <-> exists issues, analyzeMoodFromImageSchema_parse body = Throw issues)
  /\ (forall image,
        analyzeMoodFromImage (openai_apiKey no_credentials) image (completion w)
        = Throw (Error "OpenAI API key not configured"))
  /\ (forall image,
        analyzeMoodFromImageSchema_parse body = Ok image ->
        post_analyze_mood no_credentials body w
        = {| code := 500;
             sent := MessageOf (Error "OpenAI API key not configured") |}).
Proof.
  intros Hk. split; [|split; [|split; [|split]]].
  - intros image. now apply analyzeMoodFromImage_total.
  - intros Hf image. unfold analyzeMoodFromImage. rewrite Hk. simpl.
    destruct (completion w) as [[[|[[text|]] others]]|e]; simpl in *;
      try reflexivity; discriminate.
  - unfold post_analyze_mood.
    destruct (analyzeMoodFromImageSchema_parse body) as [image|e]; simpl.
    + destruct (analyzeMoodFromImage_total (openai_apiKey env) image
                  (completion w) Hk) as [detectedMood ->]. simpl.
      split; [discriminate | intros [issues H]; discriminate H].
    + split; [eauto | reflexivity].
  - reflexivity.
  - intros image Hp. unfold post_analyze_mood. rewrite Hp. reflexivity.
Qed.

Lemma analyze_mood_with_key_witness :
  analyzeMoodFromImage (openai_apiKey both_credentials) "aGFwcHk="
    (completion offline) = Ok "peaceful"
  /\ post_analyze_mood no_credentials image_body offline
     = {| code := 500; sent := MessageOf (Error "OpenAI API key not configured") |}.
Proof.
  destruct (analyze_mood_with_key both_credentials image_body offline eq_refl)
    as (_ & H2 & _ & _ & H5).
  split; [exact (H2 eq_refl "aGFwcHk=") | exact (H5 _ eq_refl)].
Defined.

(** C3, as stated, fails: without the credential the classifier raises
    instead of answering "peaceful", and the handler fails on a body that
    passes validation. *)
Lemma analyze_mood_fails_without_key :
  analyzeMoodFromImage (openai_apiKey no_credentials) "aGFwcHk="
    (completion offline) <> Ok "peaceful"
  /\ analyzeMoodFromImageSchema_parse image_body = Ok "aGFwcHk="
  /\ code (post_analyze_mood no_credentials image_body offline) = 500%Z.
Proof. split; [discriminate | split; reflexivity]. Qed.

(** With a key, a text that is not blank and has no white space other
    than U+0020 before the first U+0020 of its trimmed form is answered
    by its first token, cleaned. *)
Lemma analyzeMoodFromImage_first_word_lemma (apiKey image text : string)
    (others : list ChatMessage) :
  truthy apiKey = true ->
  truthy (trim text) = true ->
  every (fun c => negb (is_space c)) (split_space_0 (trim text)) = true ->
  analyzeMoodFromImage apiKey image (answering text others)
  = Ok (spec_first_word text).
Proof.
  intros Hk Ht Hs. rewrite analyzeMoodFromImage_text by assumption.
  unfold spec_first_word. unfold trim in *.
  now rewrite split_space_0_toLowerCase, split_trimEnd_first_token.
Qed.

(** C8, as amended. For every response text that is not blank and in
    which no white space other than U+0020 comes before the first U+0020
    of the trimmed text, the classifier (its credential present) returns
    the first whitespace-delimited token of the response, lower-cased,
    without its characters outside a-z; so "Excited!" yields "excited". *)
Theorem analyzeMoodFromImage_first_word (apiKey image text : string)
    (others : list ChatMessage) :
  truthy apiKey = true ->
  truthy (trim text) = true ->
  every (fun c => negb (is_space c)) (split_space_0 (trim text)) = true ->
  analyzeMoodFromImage apiKey image (answering text others)
  = Ok (spec_first_word text).
Proof.
  intros Hk Ht Hs. rewrite analyzeMoodFromImage_text by assumption.
  unfold spec_first_word. unfold trim in *.
  now rewrite split_space_0_toLowerCase, split_trimEnd_first_token.
Qed.

Lemma analyzeMoodFromImage_first_word_witness :
  analyzeMoodFromImage "sk-test" "aGFwcHk=" (answering "Excited!" []) = Ok "excited".
Proof.
  exact (analyzeMoodFromImage_first_word "sk-test" "aGFwcHk=" "Excited!" []
           eq_refl eq_refl eq_refl).
Defined.

(** The amended C8 reaches the texts where other white space comes
    only after the first U+0020, or only at the ends. *)
Lemma analyzeMoodFromImage_first_word_examples :
  analyzeMoodFromImage "sk-test" "aGFwcHk=" (answering "Happy and" []) = Ok "happy"
  /\ analyzeMoodFromImage "sk-test" "aGFwcHk="
       (answering ("Happy and" +:+ String (ascii_of_nat 10) "sad") [])
     = Ok (spec_first_word ("Happy and" +:+ String (ascii_of_nat 10) "sad"))
  /\ analyzeMoodFromImage "sk-test" "aGFwcHk="
       (answering (String (ascii_of_nat 9) "Calm." +:+ String (ascii_of_nat 10) EmptyString) [])
     = Ok "calm".
Proof.
  split; [|split].
  - exact (analyzeMoodFromImage_first_word_lemma "sk-test" "aGFwcHk=" "Happy and" []
             eq_refl eq_refl eq_refl).
  - exact (analyzeMoodFromImage_first_word_lemma "sk-test" "aGFwcHk="
             ("Happy and" +:+ String (ascii_of_nat 10) "sad") []
             eq_refl eq_refl eq_refl).
  - exact (analyzeMoodFromImage_first_word_lemma "sk-test" "aGFwcHk="
             (String (ascii_of_nat 9) "Calm." +:+ String (ascii_of_nat 10) EmptyString)
             [] eq_refl eq_refl eq_refl).
Qed.

(** C8, as stated, fails: a line feed does not delimit, so of the two
    lines "happy" and "sad" the classifier answers "happysad", not the
    first token "happy"; and a blank response is answered "peaceful",
    not the empty token. *)
Lemma analyzeMoodFromImage_joins_lines :
  spec_first_word two_lines = "happy"
  /\ analyzeMoodFromImage "sk-test" "aGFwcHk=" (answering two_lines [])
     <> Ok (spec_first_word two_lines)
  /\ analyzeMoodFromImage "sk-test" "aGFwcHk=" (answering " " [])
     <> Ok (spec_first_word " ").
Proof. split; [reflexivity | split; discriminate]. Qed.

(** C10, as amended. The response "123!" is not empty, yet the
    classifier returns the empty string for it and the analyze-mood
    handler answers [{ mood: "" }]. Fed to the mappers, the empty mood
    is contained in every key, so it gets the palette and the playlist
    of the first entry, "happy"; that playlist is the default one, that
    palette is not the default one. *)
Theorem empty_mood_from_digits (env : Env) (body : json_value) (image : string)
    (w : World) (others : list ChatMessage) :
  truthy (openai_apiKey env) = true ->
  analyzeMoodFromImageSchema_parse body = Ok image ->
  completion w = answering "123!" others ->
  analyzeMoodFromImage (openai_apiKey env) image (completion w) = Ok EmptyString
  /\ post_analyze_mood env body w = {| code := 200; sent := MoodJson EmptyString |}
  /\ getColorsForMood EmptyString = getColorsForMood "happy"
  /\ getColorsForMood EmptyString = Val ["#FFA726"; "#66BB6A"; "#42A5F5"; "#FFEB3B"]
  /\ getPlaylistForMood EmptyString = getPlaylistForMood "happy"
  /\ getPlaylistForMood EmptyString = Val defaultPlaylist.
Proof.
  intros Hk Hp Hc.
  assert (Ha : analyzeMoodFromImage (openai_apiKey env) image (completion w)
               = Ok EmptyString).
  { rewrite Hc. now rewrite analyzeMoodFromImage_text. }
  split; [exact Ha|]. split; [|repeat split].
  unfold post_analyze_mood. rewrite Hp. simpl. now rewrite Ha.
Qed.

Lemma empty_mood_from_digits_witness :
  post_analyze_mood both_credentials image_body
    {| fetched := fetched offline; completion := answering "123!" [];
       nanoid := nanoid offline; now := now offline |}
  = {| code := 200; sent := MoodJson EmptyString |}
  /\ getColorsForMood EmptyString = Val ["#FFA726"; "#66BB6A"; "#42A5F5"; "#FFEB3B"]
  /\ getPlaylistForMood EmptyString = Val defaultPlaylist.
Proof.
  destruct (empty_mood_from_digits both_credentials image_body "aGFwcHk="
              {| fetched := fetched offline; completion := answering "123!" [];
                 nanoid := nanoid offline; now := now offline |} []
              eq_refl eq_refl eq_refl)
    as (_ & H2 & _ & H4 & _ & H6).
  split; [exact H2 | split; [exact H4 | exact H6]].
Defined.

(** C10, as stated, fails: the empty mood does not get the default
    palette. *)
Lemma empty_mood_not_default_palette :
  getColorsForMood EmptyString <> Val defaultColors.
Proof. discriminate. Qed.

End Classifier.


(** ** The generate handler *)

Section Generate.

Lemma generateMoodboardSchema_rejects (members : list (string * json_value)) :
  invalid_mood (member "mood" members) ->
  generateMoodboardSchema_parse (JObject members) = Throw (ZodError ["mood"]).
Proof.
  intros H. unfold generateMoodboardSchema_parse.
  inversion H as [Hm | v Hv Hm | Hm | s Hs Hm]; try reflexivity.
  - destruct v; try reflexivity. now destruct (Hv s).
  - unfold mood_in_bounds.
    replace (String.length s <=? 100)%nat with false; [now rewrite andb_false_r|].
    symmetry. apply Nat.leb_gt. exact Hs.
Qed.

(** The schema accepts exactly the strings of 1 to 100 code units. *)
Lemma generateMoodboardSchema_accepts (members : list (string * json_value))
    (mood : string) :
  generateMoodboardSchema_parse (JObject members) = Ok mood <->
  member "mood" members = Some (JString mood)
  /\ (1 <= String.length mood <= 100)%nat.
Proof.
  unfold generateMoodboardSchema_parse, mood_in_bounds.
  destruct (member "mood" members) as [[| | |s| |]|]; split;
    try discriminate; try (intros [[=] _]; fail).
  - destruct (1 <=? String.length s)%nat eqn:E1;
      destruct (String.length s <=? 100)%nat eqn:E2; simpl; try discriminate.
    intros [= ->]. apply Nat.leb_le in E1, E2. auto.
  - intros [[= ->] [H1 H2]].
    apply Nat.leb_le in H1, H2. now rewrite H1, H2.
Qed.

(** C4, as amended. For every generate request whose mood member is
    absent, not a string, empty, or longer than 100 characters, the
    generate handler answers with status 500 and the validation error as
    its message, the same status it gives to a processing error, and it
    leaves the store as it was: no record is created. *)
Theorem post_moodboards_invalid_mood (env : Env) (storage : MemStorage)
    (members : list (string * json_value)) (w : World) :
  invalid_mood (member "mood" members) ->
  post_moodboards env storage (JObject members) w
  = (storage, {| code := 500; sent := MessageOf (ZodError ["mood"]) |}).
Proof.
  intros H. unfold post_moodboards.
  now rewrite (generateMoodboardSchema_rejects _ H).
Qed.

Lemma post_moodboards_invalid_mood_witness :
  post_moodboards both_credentials constructor empty_mood_body offline
  = (constructor, {| code := 500; sent := MessageOf (ZodError ["mood"]) |}).
Proof.
  exact (post_moodboards_invalid_mood both_credentials constructor
           [("mood", JString EmptyString)] offline mood_empty).
Defined.

(** C4, as stated, fails: the status of a validation failure is not in
    the 4xx class. *)
Lemma post_moodboards_empty_mood_not_4xx :
  ~ (400 <= code (snd (post_moodboards both_credentials constructor
                         empty_mood_body offline)) <= 499)%Z.
Proof. simpl. lia. Qed.

End Generate.


(** ** The store *)

Section Store.

Implicit Types (this : MemStorage) (calls : list (InsertMoodboard.t * Z)).

Lemma createMoodboard_get this (insertMoodboard : InsertMoodboard.t) (now : Z) :
  (1 <= currentId this)%Z ->
  getMoodboardByShareId (fst (createMoodboard this insertMoodboard now))
    (shareId (snd (createMoodboard this insertMoodboard now)))
  = Some (snd (createMoodboard this insertMoodboard now)).
Proof.
  intros Hpos. unfold getMoodboardByShareId, createMoodboard. simpl.
  rewrite lookup_insert_eq.
  destruct (Z.eqb_spec (currentId this) 0) as [E|_]; [lia|].
  apply lookup_insert_eq.
Qed.

Lemma creates_cons this (insertMoodboard : InsertMoodboard.t) (now : Z) calls :
  creates this ((insertMoodboard, now) :: calls)
  = (fst (creates (fst (createMoodboard this insertMoodboard now)) calls),
     snd (createMoodboard this insertMoodboard now)
     :: snd (creates (fst (createMoodboard this insertMoodboard now)) calls)).
Proof.
  simpl. now destruct (creates _ calls).
Qed.

(** What a run leaves untouched, and the identifiers it hands out. *)
Lemma creates_frame calls : forall this,
  currentId (fst (creates this calls))
  = (currentId this + Z.of_nat (List.length calls))%Z
  /\ map shareId (snd (creates this calls)) = shareIds calls
  /\ (forall (k : nat) m, snd (creates this calls) !! k = Some m ->
        id m = (currentId this + Z.of_nat k)%Z)
  /\ (forall sh, ~ In sh (shareIds calls) ->
        shareIdMap (fst (creates this calls)) !! sh = shareIdMap this !! sh)
  /\ (forall i, (i < currentId this)%Z ->
        moodboards (fst (creates this calls)) !! i = moodboards this !! i).
Proof.
  induction calls as [|[insertMoodboard now] calls IH]; intros this.
  - simpl. repeat split; try done.
    + lia.
  - rewrite creates_cons. cbn [fst snd].
    destruct (IH (fst (createMoodboard this insertMoodboard now)))
      as (Hcur & Hsh & Hid & Hmap & Hboards).
    cbn [createMoodboard fst snd currentId shareIdMap moodboards shareId] in *.
    split; [|split; [|split; [|split]]].
    + rewrite Hcur. cbn [List.length]. lia.
    + cbn [map shareIds]. f_equal. exact Hsh.
    + intros [|k] m; cbn.
      * intros [= <-]. cbn. lia.
      * intros Hk. rewrite (Hid _ _ Hk). lia.
    + intros sh Hnot. cbn [shareIds map fst] in Hnot.
      rewrite Hmap by (intros Hin; apply Hnot; now right).
      apply lookup_insert_ne. intros <-. apply Hnot. now left.
    + intros i Hi. rewrite Hboards by lia.
      apply lookup_insert_ne. lia.
Qed.

(** With distinct share identifiers, both maps still hold every record
    of the run at its end. *)
Lemma creates_lookup calls : forall this,
  (1 <= currentId this)%Z ->
  NoDup (shareIds calls) ->
  forall m, In m (snd (creates this calls)) ->
    shareIdMap (fst (creates this calls)) !! shareId m = Some (id m)
    /\ moodboards (fst (creates this calls)) !! id m = Some m
    /\ (1 <= id m)%Z.
Proof.
  induction calls as [|[insertMoodboard now] calls IH]; intros this Hpos Hnd m.
  - intros [].
  - rewrite creates_cons. cbn [fst snd].
    cbn [shareIds map fst] in Hnd. apply NoDup_cons in Hnd as [Hfresh Hnd].
    intros [<- | Hin].
    + destruct (creates_frame calls (fst (createMoodboard this insertMoodboard now)))
        as (_ & _ & _ & Hmap & Hboards).
      cbn [createMoodboard fst snd currentId shareIdMap moodboards shareId id] in *.
      rewrite Hmap by (rewrite <- list_elem_of_In; exact Hfresh).
      rewrite Hboards by lia.
      rewrite !lookup_insert_eq. repeat split. exact Hpos.
    + apply IH; [|exact Hnd|exact Hin].
      cbn [createMoodboard fst currentId]. lia.
Qed.

(** C7. For every run of [createMoodboard] calls on a fresh store with
    pairwise distinct share identifiers: each create, followed at once
    by [getMoodboardByShareId] on the share identifier of the record it
    returned, gives that record back, and so does the lookup once the
    whole run is done; the identifiers assigned grow strictly in creation
    order, hence are pairwise distinct; and the lookup of a share
    identifier that was never inserted gives nothing. *)
Theorem store_create_then_get calls :
  NoDup (shareIds calls) ->
  let final := fst (creates constructor calls) in
  let created := snd (creates constructor calls) in
  (forall before insertMoodboard now after,
      calls = (before ++ (insertMoodboard, now) :: after)%list ->
      let this := fst (creates constructor before) in
      getMoodboardByShareId (fst (createMoodboard this insertMoodboard now))
        (shareId (snd (createMoodboard this insertMoodboard now)))
      = Some (snd (createMoodboard this insertMoodboard now)))
  /\ (forall m, In m created -> getMoodboardByShareId final (shareId m) = Some m)
  /\ (forall (i j : nat) mi mj,
        (i < j)%nat -> created !! i = Some mi -> created !! j = Some mj ->
        (id mi < id mj)%Z)
  /\ (forall sh, ~ In sh (map shareId created) ->
        getMoodboardByShareId final sh = None).
Proof.
  intros Hnd final created. subst final created.
  destruct (creates_frame calls constructor) as (_ & Hsh & Hid & Hmap & _).
  split; [|split; [|split]].
  - intros before insertMoodboard now after _ this.
    apply createMoodboard_get. subst this.
    destruct (creates_frame before constructor) as (-> & _). cbn. lia.
  - intros m Hin.
    destruct (creates_lookup calls constructor ltac:(cbn; lia) Hnd m Hin)
      as (Hs & Hb & Hpos).
    unfold getMoodboardByShareId. rewrite Hs.
    destruct (Z.eqb_spec (id m) 0) as [E|_]; [lia | exact Hb].
  - intros i j mi mj Hlt Hi Hj.
    rewrite (Hid _ _ Hi), (Hid _ _ Hj). lia.
  - intros sh Hnot. unfold getMoodboardByShareId.
    rewrite Hsh in Hnot. rewrite (Hmap _ Hnot). reflexivity.
Qed.

Lemma store_create_then_get_witness :
  NoDup (shareIds two_calls)
  /\ getMoodboardByShareId (fst (creates constructor two_calls)) "3fQ9xLw0aB"
     = nth_error (snd (creates constructor two_calls)) 1
  /\ getMoodboardByShareId (fst (creates constructor two_calls)) "nonexistent"
     = None.
Proof.
  assert (Hnd : NoDup (shareIds two_calls)).
  { unfold shareIds, two_calls. simpl.
    apply NoDup_cons_2; [|apply NoDup_cons_2; [|apply NoDup_nil_2]];
      rewrite list_elem_of_In; simpl; intuition discriminate. }
  destruct (store_create_then_get two_calls Hnd) as (_ & H2 & _ & H4).
  split; [exact Hnd | split].
  - apply (H2 (snd (createMoodboard (fst (createMoodboard constructor insert_happy
                                            1700000000000)) insert_angry 1700000000001))).
    simpl. right. left. reflexivity.
  - apply H4. simpl. intros [H | [H | []]]; discriminate H.
Defined.

End Store.


(** ** The store, beyond distinct share identifiers *)

Section StoreInvariant.

Implicit Types (this : MemStorage) (calls : list (InsertMoodboard.t * Z)).

Lemma consistent_constructor : consistent constructor.
Proof.
  split; cbn.
  - lia.
  - intros i m H. now rewrite lookup_empty in H.
  - intros sh i H. now rewrite lookup_empty in H.
Qed.

Lemma consistent_createMoodboard this (insertMoodboard : InsertMoodboard.t)
    (now : Z) :
  consistent this -> consistent (fst (createMoodboard this insertMoodboard now)).
Proof.
  intros [Hpos Hkeys Hidx]. split; cbn.
  - lia.
  - intros i m. destruct (decide (currentId this = i)) as [<-|Hne].
    + rewrite lookup_insert_eq. intros [= <-]. cbn. lia.
    + rewrite lookup_insert_ne by exact Hne. intros H.
      destruct (Hkeys _ _ H). lia.
  - intros sh i.
    destruct (decide (InsertMoodboard.shareId insertMoodboard = sh)) as [<-|Hne].
    + rewrite lookup_insert_eq. intros [= <-].
      eexists. rewrite lookup_insert_eq. split; reflexivity.
    + rewrite lookup_insert_ne by exact Hne. intros H.
      destruct (Hidx _ _ H) as (m & Hm & Hsh). exists m. split; [|exact Hsh].
      rewrite lookup_insert_ne; [exact Hm|].
      destruct (Hkeys _ _ Hm). lia.
Qed.

Lemma consistent_creates calls : forall this,
  consistent this -> consistent (fst (creates this calls)).
Proof.
  induction calls as [|[insertMoodboard now] calls IH]; intros this H.
  - exact H.
  - rewrite creates_cons. cbn [fst]. apply IH.
    now apply consistent_createMoodboard.
Qed.

Lemma creates_length calls this :
  List.length (snd (creates this calls)) = List.length calls.
Proof.
  destruct (creates_frame calls this) as (_ & Hsh & _).
  apply (f_equal (@List.length string)) in Hsh.
  unfold shareIds in Hsh. now rewrite !length_map in Hsh.
Qed.

(** Each record of a run sits under its identifier at the end. *)
Lemma creates_moodboards calls : forall this (k : nat) m,
  snd (creates this calls) !! k = Some m ->
  moodboards (fst (creates this calls)) !! (currentId this + Z.of_nat k)%Z
  = Some m.
Proof.
  induction calls as [|[insertMoodboard now] calls IH]; intros this k m.
  - intros H. discriminate H.
  - rewrite creates_cons. cbn [fst snd]. destruct k as [|k]; cbn [lookup list_lookup].
    + intros [= <-].
      destruct (creates_frame calls (fst (createMoodboard this insertMoodboard now)))
        as (_ & _ & _ & _ & Hboards).
      rewrite Hboards by (cbn; lia).
      cbn. rewrite Z.add_0_r. apply lookup_insert_eq.
    + intros H. apply IH in H. cbn [createMoodboard fst currentId] in H.
      replace (currentId this + Z.of_nat (S k))%Z
        with (currentId this + 1 + Z.of_nat k)%Z by lia.
      exact H.
Qed.

(** No record appears under an identifier the run did not hand out. *)
Lemma creates_moodboards_None calls : forall this i,
  moodboards this !! i = None ->
  (i < currentId this \/ currentId this + Z.of_nat (List.length calls) <= i)%Z ->
  moodboards (fst (creates this calls)) !! i = None.
Proof.
  induction calls as [|[insertMoodboard now] calls IH]; intros this i Hnone Hout.
  - exact Hnone.
  - rewrite creates_cons. cbn [fst]. apply IH.
    + cbn. rewrite lookup_insert_ne; [exact Hnone|].
      cbn [List.length] in Hout. lia.
    + cbn [createMoodboard fst currentId]. cbn [List.length] in Hout. lia.
Qed.

(** The index of a run leads from a share identifier to the last record
    created with it. *)
Lemma creates_shareIdMap_latest calls : forall this before m after,
  snd (creates this calls) = (before ++ m :: after)%list ->
  (forall later, In later after -> shareId later <> shareId m) ->
  shareIdMap (fst (creates this calls)) !! shareId m = Some (id m).
Proof.
  induction calls as [|[insertMoodboard now] calls IH]; intros this before m after.
  - cbn. intros H. now destruct before.
  - rewrite creates_cons. cbn [fst snd]. intros Hsplit Hlast.
    destruct before as [|first before]; cbn [app] in Hsplit;
      injection Hsplit as Hm Hrest.
    + destruct (creates_frame calls (fst (createMoodboard this insertMoodboard now)))
        as (_ & Hsh & _ & Hmap & _).
      rewrite Hmap.
      * subst m. cbn. apply lookup_insert_eq.
      * rewrite <- Hsh. intros Hin.
        apply in_map_iff in Hin as (later & Heq & Hin).
        apply (Hlast later); [|now subst m].
        rewrite <- Hrest. exact Hin.
    + now apply (IH _ before m after).
Qed.

(** X1. Lookup by identifier after any run of creates on a fresh
    store, share identifiers distinct or not: the record created by the
    call of rank [k] carries identifier [1 + k] and is what
    [getMoodboard] returns for it, and [getMoodboard] returns nothing
    exactly for the identifiers outside 1 .. number of calls. *)
Theorem getMoodboard_after_creates calls :
  let final := fst (creates constructor calls) in
  let created := snd (creates constructor calls) in
  (forall (k : nat) m,
      created !! k = Some m ->
      id m = (1 + Z.of_nat k)%Z /\ getMoodboard final (id m) = Some m)
  /\ (forall i,
        getMoodboard final i = None
        <-> (i < 1 \/ Z.of_nat (List.length calls) < i)%Z).
Proof.
  intros final created. subst final created. unfold getMoodboard. split.
  - intros k m Hk.
    destruct (creates_frame calls constructor) as (_ & _ & Hid & _).
    rewrite (Hid _ _ Hk). split; [reflexivity|].
    now apply creates_moodboards.
  - intros i. split.
    + intros Hnone.
      destruct (Z_lt_dec i 1) as [|Hlo]; [now left|].
      destruct (Z_lt_dec (Z.of_nat (List.length calls)) i) as [|Hhi]; [now right|].
      exfalso.
      assert (Hlen : (Z.to_nat (i - 1) < List.length (snd (creates constructor calls)))%nat)
        by (rewrite creates_length; lia).
      apply lookup_lt_is_Some_2 in Hlen as [m Hm].
      apply creates_moodboards in Hm. cbn [constructor currentId] in Hm.
      replace (1 + Z.of_nat (Z.to_nat (i - 1)))%Z with i in Hm by lia.
      congruence.
    + intros Hout. apply creates_moodboards_None.
      * apply lookup_empty.
      * cbn [constructor currentId]. lia.
Qed.

(** Both maps hold the last record created with a share identifier. *)
Lemma creates_latest_entries calls before m after :
  snd (creates constructor calls) = (before ++ m :: after)%list ->
  (forall later, In later after -> shareId later <> shareId m) ->
  shareIdMap (fst (creates constructor calls)) !! shareId m = Some (id m)
  /\ moodboards (fst (creates constructor calls)) !! id m = Some m
  /\ (1 <= id m)%Z.
Proof.
  intros Hsplit Hlast.
  split; [exact (creates_shareIdMap_latest _ _ _ _ _ Hsplit Hlast)|].
  assert (Hk : snd (creates constructor calls) !! List.length before = Some m).
  { rewrite Hsplit. rewrite lookup_app_r by lia.
    now rewrite Nat.sub_diag. }
  destruct (creates_frame calls constructor) as (_ & _ & Hid & _).
  pose proof (Hid _ _ Hk) as Hidm. cbn [constructor currentId] in Hidm.
  split; [|lia].
  rewrite Hidm. now apply creates_moodboards.
Qed.

(** X2. When a share identifier is used by several creates, the lookup
    by share identifier returns the record of the last of them: the
    earlier records stay reachable by identifier only. *)
Theorem getMoodboardByShareId_latest calls before m after :
  snd (creates constructor calls) = (before ++ m :: after)%list ->
  (forall later, In later after -> shareId later <> shareId m) ->
  getMoodboardByShareId (fst (creates constructor calls)) (shareId m) = Some m.
Proof.
  intros Hsplit Hlast.
  destruct (creates_latest_entries calls before m after Hsplit Hlast)
    as (Hindex & Hrecord & Hpos).
  unfold getMoodboardByShareId. rewrite Hindex.
  destruct (Z.eqb_spec (id m) 0) as [E|_]; [lia | exact Hrecord].
Qed.

Lemma getMoodboardByShareId_latest_witness :
  exists m,
    nth_error (snd (creates constructor reused_calls)) 1 = Some m
    /\ id m = 2%Z
    /\ getMoodboardByShareId (fst (creates constructor reused_calls)) "V1StGXR8_Z"
       = Some m.
Proof.
  eexists. split; [reflexivity|]. split; [reflexivity|].
  refine (getMoodboardByShareId_latest reused_calls [_] _ [] eq_refl _).
  intros later [].
Defined.

(** X3. Every store reached from a fresh one by creates keeps its two
    maps in agreement: each record sits under its own identifier, which
    is at least 1 and below [currentId], and each entry of the
    share-identifier index leads to a stored record carrying that share
    identifier. *)
Theorem creates_consistent calls : consistent (fst (creates constructor calls)).
Proof. apply consistent_creates, consistent_constructor. Qed.

End StoreInvariant.


(** ** The handlers over the store *)

Section Handlers.

Implicit Types (env : Env) (storage : MemStorage) (body : json_value) (w : World).

(** The three ways [POST /api/moodboards] ends. *)
Lemma post_moodboards_cases env storage body w :
  (exists error,
      post_moodboards env storage body w
      = (storage, {| code := 500; sent := MessageOf error |}))
  \/ (exists mood images quote,
        generateMoodboardSchema_parse body = Ok mood
        /\ fetchUnsplashImages (UNSPLASH_KEY env) mood (fetched w) = Ok images
        /\ generateAIQuote (openai_apiKey env) mood (completion w) = Ok quote
        /\ post_moodboards env storage body w
           = (fst (createMoodboard storage
                     {| InsertMoodboard.mood := mood;
                        InsertMoodboard.quote := quote;
                        InsertMoodboard.images := images;
                        InsertMoodboard.colors := getColorsForMood mood;
                        InsertMoodboard.spotifyPlaylistId :=
                          Some (getPlaylistForMood mood);
                        InsertMoodboard.shareId := nanoid w |} (now w)),
              {| code := 200;
                 sent := MoodboardJson
                           (toResponse
                              (snd (createMoodboard storage
                                      {| InsertMoodboard.mood := mood;
                                         InsertMoodboard.quote := quote;
                                         InsertMoodboard.images := images;
                                         InsertMoodboard.colors := getColorsForMood mood;
                                         InsertMoodboard.spotifyPlaylistId :=
                                           Some (getPlaylistForMood mood);
                                         InsertMoodboard.shareId := nanoid w |}
                                      (now w)))) |})).
Proof.
  unfold post_moodboards.
  destruct (generateMoodboardSchema_parse body) as [mood|e]; cbn [bind];
    [|left; eauto].
  destruct (fetchUnsplashImages (UNSPLASH_KEY env) mood (fetched w))
    as [images|e] eqn:Hi; cbn [bind]; [|left; eauto].
  destruct (generateAIQuote (openai_apiKey env) mood (completion w))
    as [quote|e] eqn:Hq; cbn [bind]; [|left; eauto].
  right. exists mood, images, quote. cbn. repeat split; assumption.
Qed.

(** X4. Whatever the request, the configuration and the services, the
    generate handler answers with status 200 or 500, and whenever the
    status is not 200 the store is left exactly as it was; on status 200
    the store handed out exactly one identifier. *)
Theorem post_moodboards_all_or_nothing env storage body w :
  (code (snd (post_moodboards env storage body w)) = 200%Z
   /\ currentId (fst (post_moodboards env storage body w))
      = (currentId storage + 1)%Z)
  \/ (code (snd (post_moodboards env storage body w)) = 500%Z
      /\ fst (post_moodboards env storage body w) = storage).
Proof.
  destruct (post_moodboards_cases env storage body w)
    as [[error ->] | (mood & images & quote & _ & _ & _ & ->)].
  - right. split; reflexivity.
  - left. split; reflexivity.
Qed.

(** X5. A generate request that succeeded can be fetched back: the
    share-identifier route, asked for the share identifier of the
    response, answers 200 with the very same moodboard. *)
Theorem post_then_get env storage body w storage' moodboard :
  (1 <= currentId storage)%Z ->
  post_moodboards env storage body w
  = (storage', {| code := 200; sent := MoodboardJson moodboard |}) ->
  get_moodboard storage' (MoodboardResponse.shareId moodboard)
  = {| code := 200; sent := MoodboardJson moodboard |}.
Proof.
  intros Hpos Hpost.
  destruct (post_moodboards_cases env storage body w)
    as [[error H] | (mood & images & quote & _ & _ & _ & H)];
    rewrite H in Hpost; [discriminate Hpost|].
  injection Hpost as <- <-.
  unfold get_moodboard, getMoodboardByShareId. cbn.
  rewrite lookup_insert_eq.
  destruct (Z.eqb_spec (currentId storage) 0) as [E|_]; [lia|].
  now rewrite lookup_insert_eq.
Qed.

Lemma post_then_get_witness :
  get_moodboard (fst (post_moodboards both_credentials constructor happy_body offline))
    "V1StGXR8_Z"
  = snd (post_moodboards both_credentials constructor happy_body offline).
Proof.
  refine (post_then_get both_credentials constructor happy_body offline _ _ _ eq_refl).
  cbn. lia.
Defined.

(** X6. With both credentials configured and a mood of 1 to 100
    characters, the generate handler always answers 200, whatever the
    image search and the chat completion do; the record gets the next
    identifier, the mood as it was sent, the generated share identifier,
    the clock reading and the results of the two mappers. *)
Theorem post_moodboards_succeeds env storage members mood w :
  truthy (UNSPLASH_KEY env) = true ->
  truthy (openai_apiKey env) = true ->
  member "mood" members = Some (JString mood) ->
  (1 <= String.length mood <= 100)%nat ->
  exists storage' moodboard,
    post_moodboards env storage (JObject members) w
    = (storage', {| code := 200; sent := MoodboardJson moodboard |})
    /\ MoodboardResponse.id moodboard = currentId storage
    /\ MoodboardResponse.mood moodboard = mood
    /\ MoodboardResponse.shareId moodboard = nanoid w
    /\ MoodboardResponse.createdAt moodboard = now w
    /\ MoodboardResponse.colors moodboard = getColorsForMood mood
    /\ MoodboardResponse.spotifyPlaylistId moodboard
       = or_null (Some (getPlaylistForMood mood)).
Proof.
  intros Hu Ho Hm Hlen.
  assert (Hp : generateMoodboardSchema_parse (JObject members) = Ok mood)
    by (apply generateMoodboardSchema_accepts; auto).
  destruct (fetchUnsplashImages_with_key_total (UNSPLASH_KEY env) mood (fetched w) Hu)
    as [images Hi].
  destruct (generateAIQuote_with_key_total (openai_apiKey env) mood (completion w) Ho)
    as [quote Hq].
  unfold post_moodboards. rewrite Hp. cbn [bind]. rewrite Hi. cbn [bind].
  rewrite Hq. cbn [bind].
  do 2 eexists. split; [reflexivity|]. cbn.
  repeat split. unfold or_null.
  destruct (truthy_entry (Some (getPlaylistForMood mood))) eqn:E;
    [now rewrite E | reflexivity].
Qed.

Lemma post_moodboards_succeeds_witness :
  exists storage' moodboard,
    post_moodboards both_credentials constructor happy_body offline
    = (storage', {| code := 200; sent := MoodboardJson moodboard |})
    /\ MoodboardResponse.id moodboard = 1%Z
    /\ MoodboardResponse.mood moodboard = "happy"
    /\ MoodboardResponse.shareId moodboard = "V1StGXR8_Z"
    /\ MoodboardResponse.createdAt moodboard = 1700000000000%Z
    /\ MoodboardResponse.colors moodboard = getColorsForMood "happy"
    /\ MoodboardResponse.spotifyPlaylistId moodboard
       = or_null (Some (getPlaylistForMood "happy")).
Proof.
  refine (post_moodboards_succeeds both_credentials constructor
            [("mood", JString "happy")] "happy" offline eq_refl eq_refl eq_refl _).
  simpl. lia.
Defined.

(** X7. With a mood that passes validation, the generate handler fails
    exactly when a credential is missing; the missing image-search
    credential is the one reported when both are missing. *)
Theorem post_moodboards_missing_credential env storage body mood w :
  generateMoodboardSchema_parse body = Ok mood ->
  (code (snd (post_moodboards env storage body w)) = 500%Z
   <-> truthy (UNSPLASH_KEY env) = false \/ truthy (openai_apiKey env) = false)
  /\ (truthy (UNSPLASH_KEY env) = false ->
      snd (post_moodboards env storage body w)
      = {| code := 500;
           sent := MessageOf (Error "Unsplash API key not configured") |})
  /\ (truthy (UNSPLASH_KEY env) = true ->
      truthy (openai_apiKey env) = false ->
      snd (post_moodboards env storage body w)
      = {| code := 500;
           sent := MessageOf (Error "OpenAI API key not configured") |}).
Proof.
  intros Hp. unfold post_moodboards. rewrite Hp. cbn [bind].
  destruct (truthy (UNSPLASH_KEY env)) eqn:Hu.
  - destruct (fetchUnsplashImages_with_key_total (UNSPLASH_KEY env) mood (fetched w) Hu)
      as [images ->]. cbn [bind].
    destruct (truthy (openai_apiKey env)) eqn:Ho.
    + destruct (generateAIQuote_with_key_total (openai_apiKey env) mood
                  (completion w) Ho) as [quote ->]. cbn.
      repeat split; try discriminate. intros [H|H]; discriminate H.
    + apply truthy_false in Ho. rewrite Ho. cbn.
      repeat split; try discriminate; auto.
  - apply truthy_false in Hu. rewrite Hu. cbn.
    repeat split; try discriminate; auto.
Qed.

Lemma post_moodboards_missing_credential_witness :
  snd (post_moodboards no_credentials constructor happy_body offline)
  = {| code := 500; sent := MessageOf (Error "Unsplash API key not configured") |}.
Proof.
  destruct (post_moodboards_missing_credential no_credentials constructor
              happy_body "happy" offline eq_refl) as (_ & H & _).
  exact (H eq_refl).
Defined.

(** X8. On a store whose maps agree, a generate request changes the
    answer of the lookup for no share identifier other than the one it
    generated, and for no identifier already handed out. *)
Theorem post_moodboards_frame env storage body w :
  consistent storage ->
  (forall sh, sh <> nanoid w ->
     getMoodboardByShareId (fst (post_moodboards env storage body w)) sh
     = getMoodboardByShareId storage sh)
  /\ (forall i, (i < currentId storage)%Z ->
        getMoodboard (fst (post_moodboards env storage body w)) i
        = getMoodboard storage i).
Proof.
  intros [Hpos Hkeys Hidx].
  destruct (post_moodboards_cases env storage body w)
    as [[error ->] | (mood & images & quote & _ & _ & _ & ->)];
    [split; reflexivity|].
  cbn [fst]. unfold getMoodboardByShareId, getMoodboard. cbn. split.
  - intros sh Hne. rewrite lookup_insert_ne by congruence.
    destruct (shareIdMap storage !! sh) as [i|] eqn:Hi; [|reflexivity].
    destruct (i =? 0)%Z; [reflexivity|].
    destruct (Hidx _ _ Hi) as (m & Hm & _). destruct (Hkeys _ _ Hm).
    apply lookup_insert_ne. lia.
  - intros i Hi. apply lookup_insert_ne. lia.
Qed.

Lemma post_moodboards_frame_witness :
  getMoodboardByShareId
    (fst (post_moodboards both_credentials constructor happy_body offline))
    "3fQ9xLw0aB"
  = getMoodboardByShareId constructor "3fQ9xLw0aB".
Proof.
  destruct (post_moodboards_frame both_credentials constructor happy_body offline
              consistent_constructor) as [H _].
  apply H. discriminate.
Defined.

(** X9. The generate handler keeps the two maps of the store in
    agreement. *)
Theorem post_moodboards_consistent env storage body w :
  consistent storage -> consistent (fst (post_moodboards env storage body w)).
Proof.
  intros H.
  destruct (post_moodboards_cases env storage body w)
    as [[error ->] | (mood & images & quote & _ & _ & _ & ->)]; [exact H|].
  cbn [fst]. now apply consistent_createMoodboard.
Qed.

Lemma post_moodboards_consistent_witness :
  consistent (fst (post_moodboards both_credentials constructor happy_body offline)).
Proof.
  exact (post_moodboards_consistent both_credentials constructor happy_body offline
           consistent_constructor).
Defined.

(** The last record of a list that carries a given share identifier. *)
Lemma last_with_shareId (created : list Moodboard) (sh : string) :
  In sh (map shareId created) ->
  exists before m after,
    created = (before ++ m :: after)%list
    /\ shareId m = sh
    /\ forall later, In later after -> shareId later <> shareId m.
Proof.
  induction created as [|first created IH]; cbn; [intros []|].
  intros Hin.
  destruct (in_dec string_dec sh (map shareId created)) as [Hrest|Hrest].
  - destruct (IH Hrest) as (before & m & after & -> & Hm & Hlast).
    now exists (first :: before), m, after.
  - destruct Hin as [Hfirst|Hin]; [|contradiction].
    exists [], first, created. repeat split; [exact Hfirst|].
    intros later Hlater Heq. apply Hrest. rewrite <- Hfirst, <- Heq.
    now apply in_map.
Qed.

(** X10. On a store built from a fresh one by any run of creates, the
    share-identifier route answers 404 exactly for the share identifiers
    that no create used, and 200 for the others. *)
Theorem get_moodboard_not_found (calls : list (InsertMoodboard.t * Z)) (sh : string) :
  (code (get_moodboard (fst (creates constructor calls)) sh) = 404%Z
   <-> ~ In sh (shareIds calls))
  /\ (code (get_moodboard (fst (creates constructor calls)) sh) = 200%Z
      <-> In sh (shareIds calls)).
Proof.
  destruct (creates_frame calls constructor) as (_ & Hsh & _ & Hmap & _).
  destruct (in_dec string_dec sh (shareIds calls)) as [Hin|Hnot].
  - rewrite <- Hsh in Hin.
    destruct (last_with_shareId _ _ Hin) as (before & m & after & Hsplit & <- & Hlast).
    destruct (creates_latest_entries calls before m after Hsplit Hlast)
      as (Hindex & Hrecord & Hpos).
    unfold get_moodboard, getMoodboardByShareId. rewrite Hindex.
    destruct (Z.eqb_spec (id m) 0) as [E|_]; [lia|]. rewrite Hrecord.
    cbn. rewrite <- Hsh.
    split; split; intros H; try discriminate H; tauto.
  - unfold get_moodboard, getMoodboardByShareId. rewrite (Hmap _ Hnot). cbn.
    split; split; intros H; try discriminate H; tauto.
Qed.

End Handlers.


(** ** The mappers, case by case *)

Section MapperCases.

Lemma first_partial_None {A} (o : object A) (lowerMood : string) :
  first_partial o lowerMood = None ->
  forall key, In key (keys o) -> partial_match lowerMood key = false.
Proof.
  induction o as [|[key v] o IH]; cbn; [intros _ key []|].
  destruct (partial_match lowerMood key) eqn:E; [discriminate|].
  intros H key' [<- | Hin]; [exact E | now apply IH].
Qed.

Lemma not_inherited (mood : string) :
  toLowerCase mood <> "constructor" ->
  toLowerCase mood <> "__proto__" ->
  inherited (toLowerCase mood) = false.
Proof.
  intros H1 H2. destruct (inherited (toLowerCase mood)) eqn:E; [|reflexivity].
  destruct (inherited_lowered mood E); contradiction.
Qed.

Lemma moodColorMap_four (key : string) (palette : list string) :
  In (key, palette) moodColorMap -> List.length palette = 4%nat.
Proof.
  cbn. intros H.
  repeat (destruct H as [[= <- <-] | H]; [reflexivity|]). destruct H.
Qed.

Lemma moodPlaylistMap_22 (key playlist : string) :
  In (key, playlist) moodPlaylistMap -> String.length playlist = 22%nat.
Proof.
  cbn. intros H.
  repeat (destruct H as [[= <- <-] | H]; [reflexivity|]). destruct H.
Qed.

(** X11. For every mood whose lower-cased form is neither
    "constructor" nor "__proto__", the colour mapper returns a palette
    of exactly four colours, which is: the palette of the table entry
    whose key is the lower-cased mood; or else the palette of the first
    entry, in table order, whose key occurs in the lower-cased mood or
    contains it; or else, when no key does, the default palette. *)
Theorem getColorsForMood_cases (mood : string) :
  toLowerCase mood <> "constructor" ->
  toLowerCase mood <> "__proto__" ->
  exists palette,
    getColorsForMood mood = Val palette
    /\ List.length palette = 4%nat
    /\ (In (toLowerCase mood, palette) moodColorMap
        \/ (own moodColorMap (toLowerCase mood) = None
            /\ exists before key after,
                 moodColorMap = (before ++ (key, palette) :: after)%list
                 /\ partial_match (toLowerCase mood) key = true
                 /\ forall kv, In kv before ->
                      partial_match (toLowerCase mood) (fst kv) = false)
        \/ (palette = defaultColors
            /\ forall key, In key (keys moodColorMap) ->
                 partial_match (toLowerCase mood) key = false)).
Proof.
  intros H1 H2. rewrite (getColorsForMood_spec mood (not_inherited mood H1 H2)).
  unfold spec_ColorMapper.
  destruct (own moodColorMap (toLowerCase mood)) as [palette|] eqn:Eo.
  - apply own_In in Eo. exists palette.
    split; [reflexivity|]. split; [exact (moodColorMap_four _ _ Eo) | now left].
  - destruct (first_partial moodColorMap (toLowerCase mood)) as [palette|] eqn:Ep.
    + apply first_partial_first in Ep as (before & key & after & Hsplit & Hm & Hb).
      exists palette. split; [reflexivity|]. split.
      * apply (moodColorMap_four key). rewrite Hsplit.
        apply in_or_app. right. now left.
      * right. left. split; [reflexivity|]. now exists before, key, after.
    + exists defaultColors. split; [reflexivity|]. split; [reflexivity|].
      right. right. split; [reflexivity|]. now apply first_partial_None.
Qed.

Lemma getColorsForMood_cases_witness :
  exists palette,
    getColorsForMood "Feeling SAD today" = Val palette
    /\ List.length palette = 4%nat
    /\ (In (toLowerCase "Feeling SAD today", palette) moodColorMap
        \/ (own moodColorMap (toLowerCase "Feeling SAD today") = None
            /\ exists before key after,
                 moodColorMap = (before ++ (key, palette) :: after)%list
                 /\ partial_match (toLowerCase "Feeling SAD today") key = true
                 /\ forall kv, In kv before ->
                      partial_match (toLowerCase "Feeling SAD today") (fst kv) = false)
        \/ (palette = defaultColors
            /\ forall key, In key (keys moodColorMap) ->
                 partial_match (toLowerCase "Feeling SAD today") key = false)).
Proof.
  apply getColorsForMood_cases; discriminate.
Defined.

(** X12. For every mood whose lower-cased form is neither
    "constructor" nor "__proto__", the playlist mapper returns an
    identifier of 22 characters, which is: the identifier of the table
    entry whose key is the lower-cased mood; or else the identifier of
    the first entry, in table order, whose key occurs in the lower-cased
    mood or contains it; or else, when no key does, the default
    identifier. *)
Theorem getPlaylistForMood_cases (mood : string) :
  toLowerCase mood <> "constructor" ->
  toLowerCase mood <> "__proto__" ->
  exists playlist,
    getPlaylistForMood mood = Val playlist
    /\ String.length playlist = 22%nat
    /\ (In (toLowerCase mood, playlist) moodPlaylistMap
        \/ (own moodPlaylistMap (toLowerCase mood) = None
            /\ exists before key after,
                 moodPlaylistMap = (before ++ (key, playlist) :: after)%list
                 /\ partial_match (toLowerCase mood) key = true
                 /\ forall kv, In kv before ->
                      partial_match (toLowerCase mood) (fst kv) = false)
        \/ (playlist = defaultPlaylist
            /\ forall key, In key (keys moodPlaylistMap) ->
                 partial_match (toLowerCase mood) key = false)).
Proof.
  intros H1 H2. rewrite (getPlaylistForMood_spec mood (not_inherited mood H1 H2)).
  unfold spec_PlaylistMapper.
  destruct (own moodPlaylistMap (toLowerCase mood)) as [playlist|] eqn:Eo.
  - apply own_In in Eo. exists playlist.
    split; [reflexivity|]. split; [exact (moodPlaylistMap_22 _ _ Eo) | now left].
  - destruct (first_partial moodPlaylistMap (toLowerCase mood)) as [playlist|] eqn:Ep.
    + apply first_partial_first in Ep as (before & key & after & Hsplit & Hm & Hb).
      exists playlist. split; [reflexivity|]. split.
      * apply (moodPlaylistMap_22 key). rewrite Hsplit.
        apply in_or_app. right. now left.
      * right. left. split; [reflexivity|]. now exists before, key, after.
    + exists defaultPlaylist. split; [reflexivity|]. split; [reflexivity|].
      right. right. split; [reflexivity|]. now apply first_partial_None.
Qed.

Lemma getPlaylistForMood_cases_witness :
  exists playlist,
    getPlaylistForMood "ANGRY" = Val playlist
    /\ String.length playlist = 22%nat
    /\ (In (toLowerCase "ANGRY", playlist) moodPlaylistMap
        \/ (own moodPlaylistMap (toLowerCase "ANGRY") = None
            /\ exists before key after,
                 moodPlaylistMap = (before ++ (key, playlist) :: after)%list
                 /\ partial_match (toLowerCase "ANGRY") key = true
                 /\ forall kv, In kv before ->
                      partial_match (toLowerCase "ANGRY") (fst kv) = false)
        \/ (playlist = defaultPlaylist
            /\ forall key, In key (keys moodPlaylistMap) ->
                 partial_match (toLowerCase "ANGRY") key = false)).
Proof.
  apply getPlaylistForMood_cases; discriminate.
Defined.

(** X13. A mood written in any letter case whose lower-cased form is a
    key of a table gets exactly the entry of that key, from each mapper
    that has the key. *)
Theorem mappers_exact_key (mood : string) :
  (forall palette,
      In (toLowerCase mood, palette) moodColorMap ->
      getColorsForMood mood = Val palette)
  /\ (forall playlist,
        In (toLowerCase mood, playlist) moodPlaylistMap ->
        getPlaylistForMood mood = Val playlist).
Proof.
  split.
  - intros palette H. unfold getColorsForMood. cbn in H.
    repeat (destruct H as [[= Hk <-] | H]; [now rewrite <- Hk|]). destruct H.
  - intros playlist H. unfold getPlaylistForMood. cbn in H.
    repeat (destruct H as [[= Hk <-] | H]; [now rewrite <- Hk|]). destruct H.
Qed.

(** The mappers' answer for a lower-cased mood that meets "happy". *)
Lemma happy_meets_no_other (l : string) :
  partial_match l "happy" = true ->
  (inherited l = false)
  /\ (forall palette, own moodColorMap l = Some palette -> l = "happy")
  /\ (forall playlist, own moodPlaylistMap l = Some playlist -> l = "happy").
Proof.
  intros H. split; [|split].
  - destruct (inherited l) eqn:E; [|reflexivity].
    unfold inherited in E. apply existsb_exists in E as (name & Hin & Heq).
    apply String.eqb_eq in Heq. subst name. cbn in Hin.
    repeat (destruct Hin as [<- | Hin]; [discriminate H|]). destruct Hin.
  - intros palette Ho. apply own_In in Ho. cbn in Ho.
    destruct Ho as [[= <- _] | Ho]; [reflexivity|].
    repeat (destruct Ho as [[= <- _] | Ho]; [discriminate H|]). destruct Ho.
  - intros playlist Ho. apply own_In in Ho. cbn in Ho.
    destruct Ho as [[= <- _] | Ho]; [reflexivity|].
    repeat (destruct Ho as [[= <- _] | Ho]; [discriminate H|]). destruct Ho.
Qed.

(** X14. "happy" is the first entry of both tables, so every mood whose
    lower-cased form contains "happy" or occurs inside "happy" (a single
    letter of it, or the empty mood) gets the palette and the playlist
    of "happy", whatever other keys it also contains. *)
Theorem mappers_happy_first (mood : string) :
  (exists a b, toLowerCase mood = a +:+ "happy" +:+ b)
  \/ (exists a b, "happy" = a +:+ toLowerCase mood +:+ b) ->
  getColorsForMood mood = Val ["#FFA726"; "#66BB6A"; "#42A5F5"; "#FFEB3B"]
  /\ getPlaylistForMood mood = Val "37i9dQZF1DX0XUsuxWHRQd".
Proof.
  intros H.
  assert (Hm : partial_match (toLowerCase mood) "happy" = true).
  { unfold partial_match. apply orb_true_iff.
    destruct H as [H|H]; [left | right]; now apply includes_correct. }
  destruct (happy_meets_no_other _ Hm) as (Hi & Hc & Hp).
  unfold getColorsForMood, getPlaylistForMood, get. rewrite Hi. split.
  - destruct (own moodColorMap (toLowerCase mood)) as [palette|] eqn:E.
    + pose proof (Hc _ eq_refl) as Hl. rewrite Hl in E. now injection E as <-.
    + cbn. now rewrite Hm.
  - destruct (own moodPlaylistMap (toLowerCase mood)) as [playlist|] eqn:E.
    + pose proof (Hp _ eq_refl) as Hl. rewrite Hl in E. now injection E as <-.
    + cbn. now rewrite Hm.
Qed.

Lemma mappers_happy_first_witness :
  getColorsForMood "Unhappy and SAD" = Val ["#FFA726"; "#66BB6A"; "#42A5F5"; "#FFEB3B"]
  /\ getPlaylistForMood "Unhappy and SAD" = Val "37i9dQZF1DX0XUsuxWHRQd".
Proof.
  apply mappers_happy_first. left. exists "un", " and sad". reflexivity.
Defined.

(** X15. The playlist keys being among the colour keys, a mood that
    gets the default palette also gets the default playlist. *)
Theorem default_palette_default_playlist (mood : string) :
  getColorsForMood mood = Val defaultColors ->
  getPlaylistForMood mood = Val defaultPlaylist.
Proof.
  unfold getColorsForMood, getPlaylistForMood, get.
  destruct (own moodColorMap (toLowerCase mood)) as [palette|] eqn:Ec.
  { intros [= ->]. apply own_In in Ec. cbn in Ec.
    repeat (destruct Ec as [Ec | Ec]; [discriminate Ec|]). destruct Ec. }
  destruct (inherited (toLowerCase mood)); [discriminate|].
  destruct (first_partial moodColorMap (toLowerCase mood)) as [palette|] eqn:Ep.
  { intros [= ->]. apply first_partial_In in Ep as (key & Hin & _). cbn in Hin.
    repeat (destruct Hin as [Hin | Hin]; [discriminate Hin|]). destruct Hin. }
  intros _.
  pose proof (first_partial_None _ _ Ep) as Hnone.
  destruct (own moodPlaylistMap (toLowerCase mood)) as [playlist|] eqn:Eo.
  { apply own_In in Eo. cbn in Eo.
    repeat (destruct Eo as [[= Hk _] | Eo];
            [rewrite <- Hk in Ec; discriminate Ec|]).
    destruct Eo. }
  destruct (first_partial moodPlaylistMap (toLowerCase mood)) as [playlist|] eqn:Eq;
    [|reflexivity].
  apply first_partial_In in Eq as (key & Hin & Hm).
  rewrite Hnone in Hm; [discriminate Hm|].
  apply (proj1 playlist_keys_strict_subset).
  change key with (fst (key, playlist)). now apply in_map.
Qed.

Lemma default_palette_default_playlist_witness :
  getPlaylistForMood "bored" = Val defaultPlaylist.
Proof. exact (default_palette_default_playlist "bored" eq_refl). Defined.

(** X16. The mappers do not tell a mood from its lower-cased form. *)
Theorem mappers_ignore_case (mood : string) :
  getColorsForMood (toLowerCase mood) = getColorsForMood mood
  /\ getPlaylistForMood (toLowerCase mood) = getPlaylistForMood mood.
Proof.
  unfold getColorsForMood, getPlaylistForMood.
  now rewrite toLowerCase_idem.
Qed.

End MapperCases.


(** ** What the adapters hand back *)

Section AdapterResults.

Lemma map_urls_regular_map (photos : list Photo) : forall urls,
  map urls_regular photos = map Some urls ->
  map_urls_regular photos = Ok urls.
Proof.
  induction photos as [|photo photos IH]; intros [|url urls]; cbn;
    try discriminate; [reflexivity|].
  intros [= -> Hrest]. now rewrite (IH _ Hrest).
Qed.

(** X17. When the image search succeeds (credential present, status
    200 to 299, a result list whose photos all have [urls.regular]), the
    fetcher returns exactly those URLs, in order: as many as the service
    sent, be it none or more than four; the placeholders are not used
    to fill up. *)
Theorem fetchUnsplashImages_success (key mood : string) (st : Z)
    (photos : list Photo) (urls : list js_value) :
  truthy key = true ->
  (200 <= st <= 299)%Z ->
  map urls_regular photos = map Some urls ->
  fetchUnsplashImages key mood
    (Ok {| status := st; json := Some {| results := Some photos |} |})
  = Ok urls
  /\ List.length urls = List.length photos.
Proof.
  intros Hk Hst Hmap. split.
  - unfold fetchUnsplashImages. rewrite Hk. cbn.
    unfold ok. cbn.
    replace (200 <=? st)%Z with true by (symmetry; apply Z.leb_le; lia).
    replace (st <=? 299)%Z with true by (symmetry; apply Z.leb_le; lia).
    cbn. now rewrite (map_urls_regular_map _ _ Hmap).
  - apply (f_equal (@List.length (option js_value))) in Hmap.
    now rewrite !length_map in Hmap.
Qed.

Lemma fetchUnsplashImages_success_witness :
  fetchUnsplashImages "unsplash-test" "zzz"
    (Ok {| status := 200; json := Some {| results := Some [] |} |})
  = Ok []
  /\ List.length (@nil js_value) = List.length (@nil Photo).
Proof.
  refine (fetchUnsplashImages_success "unsplash-test" "zzz" 200 [] [] eq_refl _ eq_refl).
  lia.
Defined.

Lemma trimEnd_idem (s : string) : trimEnd (trimEnd s) = trimEnd s.
Proof.
  induction s as [|c s IH]; cbn [trimEnd]; [reflexivity|].
  destruct (trimEnd s) as [|c' r] eqn:E.
  - destruct (is_space c) eqn:Ec; cbn; [reflexivity | now rewrite Ec].
  - change (trimEnd (String c (String c' r)) = String c (String c' r)).
    remember (String c' r) as t eqn:Ht. cbn [trimEnd]. rewrite IH.
    now rewrite Ht.
Qed.

Lemma trimEnd_head (c : ascii) (s : string) :
  is_space c = false -> exists r, trimEnd (String c s) = String c r.
Proof.
  intros Hc. cbn. destruct (trimEnd s); [rewrite Hc|]; eauto.
Qed.

Lemma trimStart_head (s : string) :
  trimStart s = EmptyString
  \/ exists c r, trimStart s = String c r /\ is_space c = false.
Proof.
  induction s as [|c s IH]; cbn; [now left|].
  destruct (is_space c) eqn:Ec; [exact IH | right; eauto].
Qed.

(** Trimming a trimmed string changes nothing. *)
Lemma trim_idem (s : string) : trim (trim s) = trim s.
Proof.
  unfold trim. destruct (trimStart_head s) as [-> | (c & r & -> & Hc)];
    [reflexivity|].
  destruct (trimEnd_head c r Hc) as [r' Hr]. rewrite Hr.
  cbn [trimStart]. rewrite Hc. rewrite <- Hr. apply trimEnd_idem.
Qed.

Lemma trimEnd_snoc (s : string) (c : ascii) :
  is_space c = false ->
  trimEnd (s +:+ String c EmptyString) = s +:+ String c EmptyString.
Proof.
  intros Hc. induction s as [|a s IH].
  - change (trimEnd (String c EmptyString) = String c EmptyString).
    cbn [trimEnd]. now rewrite Hc.
  - change (trimEnd (String a (s +:+ String c EmptyString))
            = String a (s +:+ String c EmptyString)).
    cbn [trimEnd]. rewrite IH. now destruct s.
Qed.

Lemma append_assoc (a b c : string) : (a +:+ b) +:+ c = a +:+ (b +:+ c).
Proof.
  induction a as [|x a IH]; [reflexivity|].
  change (String x ((a +:+ b) +:+ c) = String x (a +:+ (b +:+ c))).
  now rewrite IH.
Qed.

Lemma trim_quoted (q : ascii) (s : string) :
  is_space q = false ->
  trim (String q (s +:+ String q EmptyString))
  = String q (s +:+ String q EmptyString).
Proof.
  intros Hq. unfold trim. cbn [trimStart]. rewrite Hq.
  change (String q (s +:+ String q EmptyString))
    with (String q s +:+ String q EmptyString).
  now apply trimEnd_snoc.
Qed.

Lemma trim_fallbackQuote (mood : string) : trim (fallbackQuote mood) = fallbackQuote mood.
Proof.
  assert (H : fallbackQuote mood
              = String (ascii_of_nat 34)
                  (("Every " +:+ mood
                    +:+ " moment is a step toward growth and self-discovery.")
                   +:+ String (ascii_of_nat 34) EmptyString)).
  { unfold fallbackQuote, dquote. rewrite !append_assoc. reflexivity. }
  rewrite H. now apply trim_quoted.
Qed.

(** X18. Whenever the quote generator returns a quote, whether the
    generated text or the template, the quote is not empty and has no
    white space at either end. *)
Theorem generateAIQuote_trimmed (apiKey mood quote : string)
    (completion : result ChatCompletion) :
  generateAIQuote apiKey mood completion = Ok quote ->
  truthy quote = true /\ trim quote = quote.
Proof.
  assert (Hf : truthy (fallbackQuote mood) = true /\ trim (fallbackQuote mood)
                                                    = fallbackQuote mood)
    by (split; [reflexivity | apply trim_fallbackQuote]).
  unfold generateAIQuote. destruct (truthy apiKey); cbn; [|discriminate].
  destruct completion as [[[|[[text|]] others]]|e]; cbn;
    intros [= <-]; try exact Hf.
  unfold or_else. destruct (truthy (trim text)) eqn:Et; [|exact Hf].
  split; [exact Et | apply trim_idem].
Qed.

Lemma generateAIQuote_trimmed_witness :
  truthy "Joy is here." = true /\ trim "Joy is here." = "Joy is here.".
Proof.
  exact (generateAIQuote_trimmed "sk-test" "happy" "Joy is here."
           (answering "  Joy is here.  " []) eq_refl).
Defined.

Lemma every_replace_non_a_z (s : string) : every is_a_z (replace_non_a_z s) = true.
Proof.
  induction s as [|c s IH]; cbn; [reflexivity|].
  destruct (is_a_z c) eqn:E; cbn; [now rewrite E, IH | exact IH].
Qed.

(** X19. Whenever the analyze-mood handler answers 200, the mood it
    returns is made of the letters a to z only: no upper-case letter,
    digit, space or punctuation reaches the caller. *)
Theorem post_analyze_mood_letters (env : Env) (body : json_value) (w : World)
    (detectedMood : string) :
  post_analyze_mood env body w = {| code := 200; sent := MoodJson detectedMood |} ->
  every is_a_z detectedMood = true.
Proof.
  unfold post_analyze_mood.
  destruct (analyzeMoodFromImageSchema_parse body) as [image|e]; cbn [bind];
    [|discriminate].
  destruct (analyzeMoodFromImage (openai_apiKey env) image (completion w))
    as [found|e] eqn:Ea; cbn [bind]; [|discriminate].
  intros [= <-].
  rewrite <- (analyzeMoodFromImage_letters _ _ _ _ Ea).
  apply every_replace_non_a_z.
Qed.

Lemma post_analyze_mood_letters_witness :
  every is_a_z "excited" = true.
Proof.
  exact (post_analyze_mood_letters both_credentials image_body
           {| fetched := fetched offline; completion := answering " Excited!! 100%" [];
              nanoid := nanoid offline; now := now offline |}
           "excited" eq_refl).
Defined.

End AdapterResults.


(** ** The client *)

Section Client.

Lemma truthy_length (s : string) : truthy s = true <-> (1 <= String.length s)%nat.
Proof. destruct s; cbn; split; intros H; try discriminate H; lia. Qed.

(** X20. The mood form never posts a blank mood: it asks for a mood
    exactly when the input is empty or white space, and otherwise posts
    the trimmed input, which has at least one character; the generate
    schema accepts that body unless the trimmed input is longer than
    100 characters, the only case the form does not stop itself. *)
Theorem handleSubmit_schema (mood : string) :
  (handleSubmit mood = MoodRequired <-> trim mood = EmptyString)
  /\ (forall body,
        handleSubmit mood = Mutate body ->
        body = JObject [("mood", JString (trim mood))]
        /\ (1 <= String.length (trim mood))%nat
        /\ ((String.length (trim mood) <= 100)%nat ->
            generateMoodboardSchema_parse body = Ok (trim mood))
        /\ ((100 < String.length (trim mood))%nat ->
            generateMoodboardSchema_parse body = Throw (ZodError ["mood"]))).
Proof.
  unfold handleSubmit. destruct (truthy (trim mood)) eqn:Et; cbn [negb].
  - split.
    + split; [discriminate|]. intros H. rewrite H in Et. discriminate Et.
    + intros body [= <-]. apply truthy_length in Et.
      split; [reflexivity|]. split; [exact Et|]. split.
      * intros Hle. apply generateMoodboardSchema_accepts.
        split; [reflexivity | lia].
      * intros Hgt. apply generateMoodboardSchema_rejects.
        now apply mood_too_long.
  - split.
    + split; [intros _; now apply truthy_false | reflexivity].
    + intros body H. discriminate H.
Qed.

(** X21. Each mood suggested by the form is posted as it is written,
    and its lower-cased form is a key of both server tables, so the
    two mappers answer with the entries of that mood and never with a
    partial match or a default. *)
Theorem suggestedMoods_have_entries (label : string) :
  In label suggestedMoods ->
  handleSubmit label = Mutate (JObject [("mood", JString label)])
  /\ exists palette playlist,
       In (toLowerCase label, palette) moodColorMap
       /\ In (toLowerCase label, playlist) moodPlaylistMap
       /\ getColorsForMood label = Val palette
       /\ getPlaylistForMood label = Val playlist.
Proof.
  cbn. intros H.
  repeat (destruct H as [<- | H];
          [split; [reflexivity|]; do 2 eexists;
           repeat split; cbn; auto 12|]).
  destruct H.
Qed.

Lemma suggestedMoods_have_entries_witness :
  handleSubmit "Dreamy" = Mutate (JObject [("mood", JString "Dreamy")])
  /\ exists palette playlist,
       In (toLowerCase "Dreamy", palette) moodColorMap
       /\ In (toLowerCase "Dreamy", playlist) moodPlaylistMap
       /\ getColorsForMood "Dreamy" = Val palette
       /\ getPlaylistForMood "Dreamy" = Val playlist.
Proof.
  apply suggestedMoods_have_entries. cbn. auto.
Defined.

Lemma every_append (test : ascii -> bool) (a b : string) :
  every test (a +:+ b) = every test a && every test b.
Proof.
  induction a as [|c a IH]; [reflexivity|].
  change (test c && every test (a +:+ b) = test c && every test a && every test b).
  now rewrite IH, andb_assoc.
Qed.

Lemma lower_char_not_upper (c : ascii) : is_upper_a_z (lower_char c) = false.
Proof. destruct c as [[] [] [] [] [] [] [] []]; reflexivity. Qed.

Lemma replace_space_runs_clean (s : string) : forall in_run,
  every (fun c => negb (is_space c) && negb (is_upper_a_z c))
        (replace_space_runs in_run (toLowerCase s)) = true.
Proof.
  induction s as [|c s IH]; intros in_run; cbn [toLowerCase replace_space_runs];
    [reflexivity|].
  destruct (is_space (lower_char c)) eqn:Es.
  - destruct in_run; [apply IH|]. cbn [every]. now rewrite IH.
  - cbn [every]. now rewrite Es, lower_char_not_upper, IH.
Qed.

(** X22. The file name offered for download never contains white space
    nor an upper-case letter A to Z, whatever the mood: it is
    "moodboard-", the lower-cased mood with each run of white space
    turned into one dash, and ".png". *)
Theorem download_name_clean (mood : string) :
  every (fun c => negb (is_space c) && negb (is_upper_a_z c)) (download_name mood)
  = true.
Proof.
  unfold download_name. rewrite !every_append, replace_space_runs_clean.
  reflexivity.
Qed.

End Client.


(** ** The image heuristic *)

Section Heuristic.

Import OpenCVProcessor.
Import PrimFloat.

(** X23. On the canvas fallback, whatever the pixels, the mood
    suggested by [getMoodFromAnalysis] is never "excited", the fixed
    edge intensity 0.3 being below the 0.4 the label needs; and when the
    canvas has no 2d context or its pixels cannot be read, the
    suggestion is "motivated". *)
Theorem fallbackAnalysis_mood (canvas : Canvas) (analysis : FaceAnalysis) :
  fallbackAnalysis canvas = Ok analysis ->
  getMoodFromAnalysis analysis <> "excited"
  /\ ((forall data, canvas <> ImageData data) ->
      analysis = getDefaultAnalysis
      /\ getMoodFromAnalysis analysis = "motivated").
Proof.
  destruct canvas as [|error|error|data]; cbn [fallbackAnalysis];
    intros H; try discriminate H; injection H as <-.
  - split; [discriminate | intros _; split; reflexivity].
  - split; [discriminate | intros _; split; reflexivity].
  - split; [|intros Hd; now destruct (Hd data)].
    unfold getMoodFromAnalysis.
    cbn [avgBrightness contrast edgeIntensity].
    set (avg := PrimFloat.div _ _).
    destruct (PrimFloat.ltb 128%float avg);
      destruct (PrimFloat.ltb 150%float avg), (PrimFloat.ltb avg 80%float),
        (PrimFloat.leb 100%float avg), (PrimFloat.leb avg 150%float);
      vm_compute; discriminate.
Qed.

Lemma fallbackAnalysis_mood_witness :
  getMoodFromAnalysis getDefaultAnalysis <> "excited"
  /\ getDefaultAnalysis = getDefaultAnalysis
  /\ getMoodFromAnalysis getDefaultAnalysis = "motivated".
Proof.
  destruct (fallbackAnalysis_mood NoContext getDefaultAnalysis eq_refl) as [H1 H2].
  split; [exact H1 | apply H2; discriminate].
Defined.

(** X24. [analyzeFacialFeatures] rejects only when OpenCV is not ready
    or has failed and, on top of that, drawing on the fallback canvas
    throws; and it reports no face only with the default analysis, that
    is only when OpenCV gave nothing and the canvas had no 2d context or
    unreadable pixels. *)
Theorem analyzeFacialFeatures_outcomes (cv : option (result Readings))
    (canvas : Canvas) :
  (forall error,
      analyzeFacialFeatures cv canvas = Throw error ->
      canvas = DrawFails error
      /\ (cv = None \/ exists failure, cv = Some (Throw failure)))
  /\ (forall analysis,
        analyzeFacialFeatures cv canvas = Ok analysis ->
        faceDetected analysis = false ->
        analysis = getDefaultAnalysis
        /\ (cv = None \/ exists failure, cv = Some (Throw failure))
        /\ (canvas = NoContext \/ exists failure, canvas = ReadFails failure)).
Proof.
  split.
  - intros error.
    destruct cv as [[readings|failure]|]; cbn; try discriminate;
      destruct canvas; cbn; try discriminate; intros [= <-]; eauto.
  - intros analysis.
    destruct cv as [[readings|failure]|]; cbn.
    + intros [= <-] H. discriminate H.
    + destruct canvas; cbn; try discriminate; intros [= <-] H;
        cbn in H; try discriminate H; repeat split; eauto.
    + destruct canvas; cbn; try discriminate; intros [= <-] H;
        cbn in H; try discriminate H; repeat split; eauto.
Qed.

End Heuristic.


(** ** The generate handler when the services are down *)

Section Degraded.

Lemma generateAIQuote_failed (apiKey mood : string)
    (completion : result ChatCompletion) :
  truthy apiKey = true ->
  chat_failed completion = true ->
  generateAIQuote apiKey mood completion = Ok (fallbackQuote mood).
Proof.
  intros Hk Hf. unfold generateAIQuote. rewrite Hk. cbn.
  destruct completion as [[[|[[text|]] others]]|e]; cbn in *;
    try reflexivity; discriminate Hf.
Qed.

Lemma fetchUnsplashImages_failed (key mood : string) (fetched : result Response) :
  truthy key = true ->
  search_failed fetched = true ->
  fetchUnsplashImages key mood fetched = Ok fallbackImages.
Proof.
  intros Hk Hf. unfold fetchUnsplashImages. rewrite Hk. cbn.
  destruct fetched as [response|e]; cbn in *; [|reflexivity].
  destruct (ok response); cbn in *; [|reflexivity].
  destruct (json response) as [[[photos|]]|]; cbn in *; try reflexivity.
  pose proof (map_urls_regular_total photos) as Hm.
  destruct (forallb has_urls photos); [discriminate Hf|].
  now rewrite Hm.
Qed.

(** X25. With both credentials and a valid mood, a generate request
    still answers 200 when both services are down: the moodboard carries
    the four placeholder images and the template quote around the mood
    as it was sent, next to the mappers' colours and playlist, and it is
    stored like any other. *)
Theorem post_moodboards_degraded (env : Env) (storage : MemStorage)
    (body : json_value) (mood : string) (w : World) :
  truthy (UNSPLASH_KEY env) = true ->
  truthy (openai_apiKey env) = true ->
  generateMoodboardSchema_parse body = Ok mood ->
  search_failed (fetched w) = true ->
  chat_failed (completion w) = true ->
  exists moodboard,
    snd (post_moodboards env storage body w)
    = {| code := 200; sent := MoodboardJson moodboard |}
    /\ MoodboardResponse.images moodboard = fallbackImages
    /\ MoodboardResponse.quote moodboard = fallbackQuote mood
    /\ MoodboardResponse.colors moodboard = getColorsForMood mood
    /\ getMoodboard (fst (post_moodboards env storage body w)) (currentId storage)
       = Some {| id := currentId storage;
                 mood := mood;
                 quote := fallbackQuote mood;
                 images := fallbackImages;
                 colors := getColorsForMood mood;
                 spotifyPlaylistId := or_null (Some (getPlaylistForMood mood));
                 shareId := nanoid w;
                 createdAt := now w |}.
Proof.
  intros Hu Ho Hp Hs Hc. unfold post_moodboards. rewrite Hp. cbn [bind].
  rewrite (fetchUnsplashImages_failed _ _ _ Hu Hs). cbn [bind].
  rewrite (generateAIQuote_failed _ _ _ Ho Hc). cbn [bind].
  eexists. cbn. split; [reflexivity|]. repeat split.
  unfold getMoodboard. cbn. apply lookup_insert_eq.
Qed.

Lemma post_moodboards_degraded_witness :
  exists moodboard,
    snd (post_moodboards both_credentials constructor happy_body offline)
    = {| code := 200; sent := MoodboardJson moodboard |}
    /\ MoodboardResponse.images moodboard = fallbackImages
    /\ MoodboardResponse.quote moodboard = fallbackQuote "happy"
    /\ MoodboardResponse.colors moodboard = getColorsForMood "happy"
    /\ getMoodboard (fst (post_moodboards both_credentials constructor happy_body
                            offline)) (currentId constructor)
       = Some {| id := currentId constructor;
                 mood := "happy";
                 quote := fallbackQuote "happy";
                 images := fallbackImages;
                 colors := getColorsForMood "happy";
                 spotifyPlaylistId := or_null (Some (getPlaylistForMood "happy"));
                 shareId := nanoid offline;
                 createdAt := now offline |}.
Proof.
  exact (post_moodboards_degraded both_credentials constructor happy_body "happy"
           offline eq_refl eq_refl eq_refl eq_refl eq_refl).
Defined.

End Degraded.
